(** * goa middlewares: CORS negotiation, JWT gate and header gate

    A shallow embedding of the request-handling code of the [cors], [jwt]
    and [middleware] packages, and the properties of the specification
    stated over it.

    Go strings are byte sequences; they are modelled by [string] (a list
    of 8-bit [ascii] characters).  [http.Header] is a Go map from header
    name to the list of values of that header and is modelled by a
    [gmap string (list string)].  Handlers mutate the response writer and
    the request they are given; the model passes both explicitly and
    returns their final value.  A Go panic is an explicit outcome. *)

From Stdlib Require Import ZArith String Ascii List Bool Lia.
From Stdlib Require Import DecimalString DecimalPos DecimalZ.
From stdpp Require Import base option list gmap strings.

Open Scope string_scope.

(** ** Outcomes of Go code: normal return or panic *)

Inductive go (A : Type) : Type :=
  | Ret (a : A)
  | Panic.
Arguments Ret {A} a.
Arguments Panic {A}.

#[global] Instance go_ret : MRet go := fun A a => Ret a.
#[global] Instance go_bind : MBind go := fun A B f m =>
  match m with
  | Ret a => f a
  | Panic => Panic
  end.

(** Go's [error] interface value: [None] is [nil]. *)
Definition error : Type := option string.

(** A compiled [*regexp.Regexp] is used only through [MatchString]; it is
    modelled by that predicate.  A nil pointer is [None]. *)
Definition Regexp : Type := string → bool.

(** ** The functions of Go's [strings] and [strconv] used by the code

    Go's case mapping and space trimming decode UTF-8 and follow the
    tables of package [unicode].  On a string whose bytes are all below
    0x80 ([isASCII]) they act on the letters a-z and A-Z and on the six
    ASCII space characters only, and that is the part given here: a
    statement that depends on the value of [ToUpper] or [TrimSpace] on
    a header value a client sends carries the hypothesis that the value
    is ASCII. *)
Module GoStrings.

(** Every byte of the string is below [utf8.RuneSelf] (0x80). *)
Fixpoint isASCII (s : string) : bool :=
  match s with
  | EmptyString => true
  | String c s' => (N_of_ascii c <? 128)%N && isASCII s'
  end.

Definition byte_between (lo hi : N) (c : ascii) : bool :=
  (lo <=? N_of_ascii c)%N && (N_of_ascii c <=? hi)%N.

Definition isLower (c : ascii) : bool := byte_between 97 122 c.
Definition isUpper (c : ascii) : bool := byte_between 65 90 c.
Definition isDigit (c : ascii) : bool := byte_between 48 57 c.

Definition toUpperByte (c : ascii) : ascii :=
  if isLower c then ascii_of_N (N_of_ascii c - 32) else c.

Definition toLowerByte (c : ascii) : ascii :=
  if isUpper c then ascii_of_N (N_of_ascii c + 32) else c.

Fixpoint mapBytes (f : ascii → ascii) (s : string) : string :=
  match s with
  | EmptyString => EmptyString
  | String c s' => String (f c) (mapBytes f s')
  end.

(** [strings.ToUpper], [strings.ToLower] on ASCII strings: the loop
    of their ASCII path, which maps the bytes a-z (A-Z) and leaves
    every other byte. *)
Definition ToUpper (s : string) : string := mapBytes toUpperByte s.
Definition ToLower (s : string) : string := mapBytes toLowerByte s.

(** The ASCII space table of package [strings]:
    tab, newline, vertical tab, form feed, carriage return, space. *)
Definition isSpace (c : ascii) : bool :=
  byte_between 9 13 c || (N_of_ascii c =? 32)%N.

Fixpoint trimLeft (s : string) : string :=
  match s with
  | EmptyString => EmptyString
  | String c s' => if isSpace c then trimLeft s' else s
  end.

Fixpoint trimRight (s : string) : string :=
  match s with
  | EmptyString => EmptyString
  | String c s' =>
      match trimRight s' with
      | EmptyString => if isSpace c then EmptyString else String c EmptyString
      | r => String c r
      end
  end.

(** [strings.TrimSpace] on ASCII strings: the loops of its ASCII
    path, which drop the leading and the trailing bytes of the space
    table. *)
Definition TrimSpace (s : string) : string := trimRight (trimLeft s).

(** [strings.Split(s, sep)] for a separator of one byte: the pieces
    between the separators, in order; [n] separators give [n+1]
    pieces, so the empty string gives one empty piece. *)
Fixpoint Split (s : string) (sep : ascii) : list string :=
  match s with
  | EmptyString => [EmptyString]
  | String c s' =>
      if Ascii.eqb c sep then EmptyString :: Split s' sep
      else match Split s' sep with
           | piece :: pieces => String c piece :: pieces
           | [] => [String c EmptyString]
           end
  end.

(** [strings.Join(a, sep)]. *)
Definition Join (a : list string) (sep : string) : string :=
  String.concat sep a.

(** [strings.HasPrefix(s, prefix)]. *)
Fixpoint HasPrefix (s prefix : string) {struct prefix} : bool :=
  match prefix with
  | EmptyString => true
  | String p prefix' =>
      match s with
      | EmptyString => false
      | String c s' => Ascii.eqb c p && HasPrefix s' prefix'
      end
  end.

(** [strconv.Itoa]: the decimal representation of an integer. *)
Definition Itoa (n : Z) : string := NilZero.string_of_int (Z.to_int n).

(** Does the string hold the byte; the last byte of a string. *)
Fixpoint holds (sep : ascii) (s : string) : bool :=
  match s with
  | EmptyString => false
  | String c s' => Ascii.eqb c sep || holds sep s'
  end.

Fixpoint lastByte (s : string) : option ascii :=
  match s with
  | EmptyString => None
  | String c EmptyString => Some c
  | String _ s' => lastByte s'
  end.

End GoStrings.

(** ** The part of [net/http] the middlewares touch *)
Module Http.
Import GoStrings.

(** [http.Header], a [map[string][]string]; the header map of a served
    request and of a response writer is never the nil map. *)
Abbreviation Header := (gmap string (list string)).

(** The token bytes of a header field name ([validHeaderFieldByte]). *)
Definition validHeaderFieldByte (c : ascii) : bool :=
  isLower c || isUpper c || isDigit c ||
  existsb (Ascii.eqb c) (list_ascii_of_string "!#$%&'*+-.^_`|~").

Fixpoint allBytes (p : ascii → bool) (s : string) : bool :=
  match s with
  | EmptyString => true
  | String c s' => p c && allBytes p s'
  end.

(** The rewriting loop of [canonicalMIMEHeaderKey]: the first letter
    and every letter after a hyphen are upper-cased, the others
    lower-cased. *)
Fixpoint canonicalize (upper : bool) (s : string) : string :=
  match s with
  | EmptyString => EmptyString
  | String c s' =>
      let c' := if upper then toUpperByte c else toLowerByte c in
      String c' (canonicalize (Ascii.eqb c' "-") s')
  end.

(** [textproto.CanonicalMIMEHeaderKey]: a key holding a byte that is
    not a token byte is returned unchanged. *)
Definition CanonicalMIMEHeaderKey (s : string) : string :=
  if allBytes validHeaderFieldByte s then canonicalize true s else s.

(** [h[key]]: indexing a Go map at a missing key gives the nil slice. *)
Definition values (h : Header) (key : string) : list string :=
  default [] (h !! key).

(** [Header.Get]: the first value of the canonicalised key, or [""]. *)
Definition Header_Get (h : Header) (key : string) : string :=
  match values h (CanonicalMIMEHeaderKey key) with
  | [] => ""
  | v :: _ => v
  end.

(** [Header.Set]: replaces all values of the canonicalised key. *)
Definition Header_Set (h : Header) (key value : string) : Header :=
  <[CanonicalMIMEHeaderKey key := [value]]> h.

(** [*http.Request]: the fields read or written by the middlewares.
    [URLQuery] is [req.URL.Query()]. *)
Record Request : Type := mkRequest {
  Method : string;
  URLPath : string;
  URLQuery : gmap string (list string);
  reqHeader : Header;
  Body : string
}.

(** [http.ResponseWriter]: its header map, the status code once
    [WriteHeader] was called, and the bytes written. *)
Record ResponseWriter : Type := mkResponseWriter {
  rwHeader : Header;
  rwStatus : option Z;
  rwBody : string
}.

Definition withReqHeader (req : Request) (h : Header) : Request :=
  {| Method := Method req; URLPath := URLPath req; URLQuery := URLQuery req;
     reqHeader := h; Body := Body req |}.

Definition withRwHeader (rw : ResponseWriter) (h : Header) : ResponseWriter :=
  {| rwHeader := h; rwStatus := rwStatus rw; rwBody := rwBody rw |}.

(** [rw.WriteHeader(code)] followed by [rw.Write(body)]: the first
    status code written is the one sent. *)
Definition writeResponse (rw : ResponseWriter) (code : Z) (body : string)
  : ResponseWriter :=
  {| rwHeader := rwHeader rw;
     rwStatus := match rwStatus rw with Some c => Some c | None => Some code end;
     rwBody := rwBody rw ++ body |}.

End Http.

(** ** Package [cors] (cors/middleware.go, whose lines are cited) *)
Module Cors.
Import GoStrings Http.

Definition acAllowCredentials := "Access-Control-Allow-Credentials".
Definition acAllowHeaders := "Access-Control-Allow-Headers".
Definition acAllowMethods := "Access-Control-Allow-Methods".
Definition acAllowOrigin := "Access-Control-Allow-Origin".
Definition acExposeHeaders := "Access-Control-Expose-Headers".
Definition acMaxAge := "Access-Control-Max-Age".
Definition acRequestMethod := "Access-Control-Request-Method".
Definition acRequestHeaders := "Access-Control-Request-Headers".

(** [context.Context] as the package uses it: [goa.Request(ctx).URL.Path]
    and the values a guard may inspect. *)
Record Context : Type := mkContext {
  ctxPath : string;
  ctxValues : gmap string string
}.

(** Modelled from the spec: the declaration of [CheckFunc] (the DSL
    file of the package) is not among the sources; it is the guard of
    the spec's ResourceRule, a predicate on the request context. *)
Definition CheckFunc : Type := Context → bool.

(** Modelled from the spec: the declaration of [ResourceDefinition]
    (the DSL file of the package) is not among the sources.  The fields
    are the ones middleware.go reads, typed by their uses there, and
    are those of the spec's ResourceRule: [Origin] is the exact origin
    or ["*"], or [""] when the rule has a pattern [OriginRegexp]
    instead; [CheckFn] is the field [Check], the optional guard. *)
Record ResourceDefinition : Type := mkResource {
  Origin : string;
  OriginRegexp : option Regexp;
  Path : string;
  IsPathPrefix : bool;
  Headers : list string;
  Methods : list string;
  Expose : list string;
  MaxAge : Z;
  Credentials : bool;
  Vary : list string;
  CheckFn : option CheckFunc
}.

(** Modelled from the spec: the declaration of [Specification] is not
    among the sources either; it is the ordered sequence of rules that
    the loops of middleware.go range over ([[]*ResourceDefinition]).
    No rule is written after construction, so pointers are modelled by
    values. *)
Definition Specification : Type := list ResourceDefinition.

(** [goa.Handler]: [func(ctx, rw, req) error].  The response writer and
    the request are mutable objects; their final values are returned
    with the error. *)
Definition Handler : Type :=
  Context → ResponseWriter → Request → go (error * ResponseWriter * Request).

(** [FillHeaders], lines 137-149. *)
Definition FillHeaders (res : ResourceDefinition) (origin : string)
    (dest : Header) : Header :=
  let dest := Header_Set dest acAllowOrigin origin in
  let dest := Header_Set dest acAllowMethods (Join (Methods res) ", ") in
  let dest :=
    if (0 <? length (Expose res))%nat
    then Header_Set dest acExposeHeaders (Join (Expose res) ", ")
    else dest in
  let dest :=
    if (0 <? MaxAge res)%Z
    then Header_Set dest acMaxAge (Itoa (MaxAge res))
    else dest in
  if Credentials res
  then Header_Set dest acAllowCredentials "true"
  else dest.

(** [OriginAllowed], lines 151-156.  [MatchString] on a nil
    [OriginRegexp] dereferences a nil pointer. *)
Definition OriginAllowed (res : ResourceDefinition) (origin : string)
    : go bool :=
  if negb (Origin res =? "")
  then Ret ((Origin res =? "*") || (Origin res =? origin))
  else match OriginRegexp res with
       | Some re => Ret (re origin)
       | None => Panic
       end.

(** [PathMatches], lines 159-164. *)
Definition PathMatches (res : ResourceDefinition) (path : string) : bool :=
  if IsPathPrefix res
  then HasPrefix path (Path res)
  else path =? Path res.

(** The loop of [RequestResource], lines 170-177: [&&] evaluates
    [OriginAllowed] first and [PathMatches] only when it holds; the
    guard is called only on a rule that passed both. *)
Fixpoint RequestResource_loop (v : Specification) (ctx : Context)
    (path origin : string) : go (option ResourceDefinition) :=
  match v with
  | [] => Ret None
  | res :: rest =>
      allowed ← OriginAllowed res origin;
      if allowed && PathMatches res path
      then
        if match CheckFn res with
           | None => true
           | Some check => check ctx
           end
        then Ret (Some res)
        else RequestResource_loop rest ctx path origin
      else RequestResource_loop rest ctx path origin
  end.

(** [RequestResource], lines 167-179. *)
Definition RequestResource (v : Specification) (ctx : Context)
    (origin : string) : go (option ResourceDefinition) :=
  let path := ctxPath ctx in
  RequestResource_loop v ctx path origin.

(** [PathResource], lines 182-196. *)
Fixpoint PathResource (v : Specification) (path : string)
    : option ResourceDefinition :=
  match v with
  | [] => None
  | r :: rest =>
      if IsPathPrefix r
      then if HasPrefix path (Path r) then Some r else PathResource rest path
      else if Path r =? path then Some r else PathResource rest path
  end.

(** Lines 46-51: is [acMethod] one of the rule's methods. *)
Definition methodFound (acMethod : string) (methods : list string) : bool :=
  existsb (fun m => m =? acMethod) methods.

(** Lines 57-64: every value of the request header is split on commas
    and each piece trimmed. *)
Definition splat (headers : list string) : list string :=
  flat_map (fun h => map TrimSpace (Split h ",")) headers.

(** Lines 68-73, the inner loop over [res.Headers]: it sets [ok] when
    an allowed header is ["*"] or equals [h], and leaves [ok] as it was
    otherwise. *)
Fixpoint headerLoop (h : string) (allowed : list string) (ok : bool) : bool :=
  match allowed with
  | [] => ok
  | h2 :: rest =>
      if (h2 =? "*") || (h =? h2) then true else headerLoop h rest ok
  end.

(** Lines 67-77, the outer loop over the requested headers.  [ok] is
    declared before the loop (line 66) and carried from one requested
    header to the next. *)
Fixpoint headersLoop (headers allowed : list string) (ok : bool) : bool :=
  match headers with
  | [] => ok
  | h :: rest =>
      let ok := headerLoop h allowed ok in
      if negb ok then ok else headersLoop rest allowed ok
  end.

(** Lines 66-78: [ok := false] and the two loops. *)
Definition headersOk (headers allowed : list string) : bool :=
  headersLoop headers allowed false.

(** Lines 29-32. *)
Definition requestOrigin (header : Header) : string :=
  let origin := Header_Get header "Origin" in
  if origin =? "" then Header_Get header "X-Origin" else origin.

(** Lines 33-86, up to the label [handleRequest]: the value of [res]
    and [originHeader] and the response header map at the label.  Each
    [goto handleRequest] is a return with the response headers as they
    were. *)
Definition preflight (spec : Specification) (ctx : Context)
    (req : Request) (dest : Header)
    : go (option ResourceDefinition * string * Header) :=
  let header := reqHeader req in
  let origin := requestOrigin header in
  if negb (origin =? "") then
    let originHeader := origin in
    res ← RequestResource spec ctx origin;
    match res with
    | None => Ret (None, originHeader, dest)
    | Some res =>
        let acMethod := ToUpper (Header_Get header acRequestMethod) in
        if negb (Method req =? "OPTIONS") || (acMethod =? "")
        then Ret (Some res, originHeader, dest)
        else if negb (methodFound acMethod (Methods res))
        then Ret (Some res, originHeader, dest)
        else
          let headers := splat (values header acRequestHeaders) in
          if (0 <? length headers)%nat && negb (headersOk headers (Headers res))
          then Ret (Some res, originHeader, dest)
          else
            let originHeader :=
              if (Origin res =? "*") && negb (Credentials res)
              then "*" else originHeader in
            Ret (Some res, originHeader,
                 Header_Set dest acAllowHeaders (Join headers ", "))
    end
  else Ret (None, "", dest).

(** Lines 94-103: the Vary values are appended to [header], which is
    [req.Header] (line 28), and stored back into it. *)
Definition applyVary (res : ResourceDefinition) (header : Header) : Header :=
  let v := values header "Vary" in
  let v := if (0 <? length (Vary res))%nat
           then (v ++ Vary res)%list
           else (v ++ ["Origin"])%list in
  <["Vary" := v]> header.

(** Lines 87-103, from the label [handleRequest] to the call of the
    next handler: the response writer and the request handed on. *)
Definition handleRequest (spec : Specification)
    (res : option ResourceDefinition) (originHeader : string)
    (dest : Header) (rw : ResponseWriter) (req : Request)
    : ResponseWriter * Request :=
  let header := reqHeader req in
  let '(res, dest) :=
    match res with
    | Some r => (Some r, FillHeaders r originHeader dest)
    | None => (PathResource spec (URLPath req), dest)
    end in
  let header :=
    match res with
    | Some r => applyVary r header
    | None => header
    end in
  (withRwHeader rw dest, withReqHeader req header).

(** Everything the handler of [Middleware] does before line 104. *)
Definition negotiate (spec : Specification) (ctx : Context)
    (rw : ResponseWriter) (req : Request) : go (ResponseWriter * Request) :=
  '(res, originHeader, dest) ← preflight spec ctx req (rwHeader rw);
  Ret (handleRequest spec res originHeader dest rw req).

(** [Middleware], lines 25-107. *)
Definition Middleware (spec : Specification) : Handler → Handler :=
  fun h ctx rw req =>
    '(rw, req) ← negotiate spec ctx rw req;
    h ctx rw req.

(** The handler mounted by [MountPreflightController], lines 122-127. *)
Definition preflightHandler : Handler :=
  fun ctx rw req =>
    let rw := withRwHeader rw (Header_Set (rwHeader rw) "Content-Type" "text/plain") in
    Ret (None, writeResponse rw 200 "", req).

End Cors.

(** ** Package [jwt]: the token gate (lines of the package's
    middleware source are cited) *)
Module Jwt.
Import GoStrings Http.

(** [jwt.Token] of the token library: the fields the middleware and
    its callers read. *)
Record Token : Type := mkToken {
  Raw : string;
  Valid : bool;
  Claims : gmap string string
}.

Definition JWTKey : Z := 0.
Definition TokenManagerKey : Z := 1.
Definition JWTHeader := "Authorization".

(** The values the package stores in a [context.Context], by key. *)
Record Context : Type := mkContext {
  ctxValues : gmap Z Token
}.

(** [context.WithValue]. *)
Definition WithValue (ctx : Context) (key : Z) (val : Token) : Context :=
  {| ctxValues := <[key := val]> (ctxValues ctx) |}.

Definition Handler : Type :=
  Context → ResponseWriter → Request → go (error * ResponseWriter * Request).

(** [url.Values.Get]: the first value of the key, or [""]. *)
Definition Query_Get (q : gmap string (list string)) (key : string) : string :=
  match default [] (q !! key) with
  | [] => ""
  | v :: _ => v
  end.

Section WithTokenLibrary.

(** The key callbacks handed to the token library. *)
Variable Keyfunc : Type.

(** [jwt.Parse] of the token library: the token, if any, and the
    error. *)
Variable Parse : string → Keyfunc → option Token * error.

(** [goa.Response(ctx).Send(status, body)]: writes a response to the
    response writer of the request and returns the error. *)
Variable Send : ResponseWriter → Z → string → go (error * ResponseWriter).

(** [Specification], lines 84-116: the fields of the middleware; the
    signing fields are read by the token manager only. *)
Record Specification : Type := mkSpecification {
  TokenHeader : string;
  TokenParam : string;
  AllowParam : bool;
  ValidationFunc : Keyfunc;
  AuthOptions : bool;
  TTLMinutes : Z;
  RefreshTTLMinutes : Z;
  Issuer : string
}.

(** Lines 122-132: the token of the header, and whether one was
    found, or the error of a malformed header. *)
Definition headerToken (header : string) : string * bool + string :=
  if negb (header =? "") then
    match Split header " " with
    | [scheme; tok] =>
        if negb (ToLower scheme =? "bearer")
        then inr "Malformed token header"
        else inl (tok, true)
    | _ => inr "Malformed token header"
    end
  else inl ("", false).

(** [GetToken], lines 119-142. *)
Definition GetToken (req : Request) (spec : Specification)
    : option Token * error :=
  let header := Header_Get (reqHeader req) (TokenHeader spec) in
  match headerToken header with
  | inr err => (None, Some err)
  | inl (tok, found) =>
      let tok :=
        if negb found && AllowParam spec
        then Query_Get (URLQuery req) (TokenParam spec)
        else tok in
      if tok =? "" then (None, Some "no token")
      else Parse tok (ValidationFunc spec)
  end.

(** Lines 149-154: the defaults written into the specification. *)
Definition withDefaults (spec : Specification) : Specification :=
  {| TokenHeader := if TokenHeader spec =? "" then "Authorization"
                    else TokenHeader spec;
     TokenParam := if TokenParam spec =? "" then "token"
                   else TokenParam spec;
     AllowParam := AllowParam spec;
     ValidationFunc := ValidationFunc spec;
     AuthOptions := AuthOptions spec;
     TTLMinutes := TTLMinutes spec;
     RefreshTTLMinutes := RefreshTTLMinutes spec;
     Issuer := Issuer spec |}.

Definition StatusUnauthorized : Z := 401.

(** [Middleware], lines 148-175.  [token.Valid] on a nil token, which
    the library never returns without an error, is a panic. *)
Definition Middleware (spec : Specification) : Handler → Handler :=
  let spec := withDefaults spec in
  fun h ctx rw req =>
    if negb (AuthOptions spec) && (Method req =? "OPTIONS")
    then h ctx rw req
    else
      match GetToken req spec with
      | (_, Some _) =>
          '(err, rw) ← Send rw StatusUnauthorized "Unauthorized";
          Ret (err, rw, req)
      | (None, None) => Panic
      | (Some token, None) =>
          if negb (Valid token)
          then '(err, rw) ← Send rw StatusUnauthorized "Invalid Token";
               Ret (err, rw, req)
          else h (WithValue ctx JWTKey token) rw req
      end.

End WithTokenLibrary.

Arguments TokenHeader {Keyfunc} _.
Arguments TokenParam {Keyfunc} _.
Arguments AllowParam {Keyfunc} _.
Arguments ValidationFunc {Keyfunc} _.
Arguments AuthOptions {Keyfunc} _.
Arguments GetToken {Keyfunc} Parse req spec.
Arguments withDefaults {Keyfunc} spec.
Arguments Middleware {Keyfunc} Parse Send spec _ _ _ _.

End Jwt.

(** ** Package [middleware]: [RequireHeader] (lines of the package's
    source are cited) *)
Module HeaderGate.
Import GoStrings Http.

(** [*goa.Context] of this package's handlers ([func(ctx) error]): it
    carries the request, the response written so far, and the
    connection's [Write], which may fail. *)
Record Context : Type := mkContext {
  ctxRequest : Request;
  ctxResponse : ResponseWriter;
  ctxWrite : string → string * error
}.

Definition Handler : Type := Context → go (error * Context).

(** [http.StatusText]: the text of every status code that [net/http]
    names; any other code has the empty text. *)
Definition StatusText (code : Z) : string :=
  match code with
  | 100 => "Continue" | 101 => "Switching Protocols"
  | 102 => "Processing" | 103 => "Early Hints"
  | 200 => "OK" | 201 => "Created" | 202 => "Accepted"
  | 203 => "Non-Authoritative Information" | 204 => "No Content"
  | 205 => "Reset Content" | 206 => "Partial Content"
  | 207 => "Multi-Status" | 208 => "Already Reported" | 226 => "IM Used"
  | 300 => "Multiple Choices" | 301 => "Moved Permanently"
  | 302 => "Found" | 303 => "See Other" | 304 => "Not Modified"
  | 305 => "Use Proxy" | 307 => "Temporary Redirect"
  | 308 => "Permanent Redirect"
  | 400 => "Bad Request" | 401 => "Unauthorized"
  | 402 => "Payment Required" | 403 => "Forbidden" | 404 => "Not Found"
  | 405 => "Method Not Allowed" | 406 => "Not Acceptable"
  | 407 => "Proxy Authentication Required" | 408 => "Request Timeout"
  | 409 => "Conflict" | 410 => "Gone" | 411 => "Length Required"
  | 412 => "Precondition Failed" | 413 => "Request Entity Too Large"
  | 414 => "Request URI Too Long" | 415 => "Unsupported Media Type"
  | 416 => "Requested Range Not Satisfiable" | 417 => "Expectation Failed"
  | 418 => "I'm a teapot" | 421 => "Misdirected Request"
  | 422 => "Unprocessable Entity" | 423 => "Locked"
  | 424 => "Failed Dependency" | 425 => "Too Early"
  | 426 => "Upgrade Required" | 428 => "Precondition Required"
  | 429 => "Too Many Requests" | 431 => "Request Header Fields Too Large"
  | 451 => "Unavailable For Legal Reasons"
  | 500 => "Internal Server Error" | 501 => "Not Implemented"
  | 502 => "Bad Gateway" | 503 => "Service Unavailable"
  | 504 => "Gateway Timeout" | 505 => "HTTP Version Not Supported"
  | 506 => "Variant Also Negotiates" | 507 => "Insufficient Storage"
  | 508 => "Loop Detected" | 510 => "Not Extended"
  | 511 => "Network Authentication Required"
  | _ => ""
  end%Z.

(** [ctx.RespondBytes(code, body)] of goa: [ctx.WriteHeader(code)],
    then [ctx.Write(body)], whose error it returns.  [ctxWrite] is the
    [Write] of the connection behind the context: the bytes of the
    body that reach the response and the error, nil when the write
    succeeds (all the bytes are written then). *)
Definition RespondBytes (ctx : Context) (code : Z) (body : string)
    : go (error * Context) :=
  let '(written, err) := ctxWrite ctx body in
  Ret (err, {| ctxRequest := ctxRequest ctx;
               ctxResponse := writeResponse (ctxResponse ctx) code written;
               ctxWrite := ctxWrite ctx |}).

(** [RequireHeader], lines 234-264. *)
Definition RequireHeader (pathPattern : option Regexp)
    (requiredHeaderName : string) (requiredHeaderValue : option Regexp)
    (failureStatus : Z) : Handler → Handler :=
  fun h ctx =>
    if match pathPattern with
       | None => true
       | Some re => re (URLPath (ctxRequest ctx))
       end
    then
      let matched := false in
      let header := reqHeader (ctxRequest ctx) in
      let headerValue := Header_Get header requiredHeaderName in
      let matched :=
        if (0 <? String.length headerValue)%nat
        then match requiredHeaderValue with
             | None => true
             | Some re => re headerValue
             end
        else matched in
      if matched
      then h ctx
      else RespondBytes ctx failureStatus (StatusText failureStatus)
    else h ctx.

End HeaderGate.

(** ** The specification's reading of rule matching, and sample data *)
Module CorsSpec.
Import GoStrings Http Cors.

(** Origin match of a rule, in the words of the specification: exact
    equality or the wildcard when the rule has an exact origin, the
    pattern when it has a pattern instead. *)
Definition originMatches (r : ResourceDefinition) (origin : string) : Prop :=
  (Origin r ≠ "" ∧ (Origin r = origin ∨ Origin r = "*")) ∨
  (Origin r = "" ∧ ∃ re, OriginRegexp r = Some re ∧ re origin = true).

(** Path match: a prefix when [isPrefix] is set, equality otherwise. *)
Definition pathMatches (r : ResourceDefinition) (path : string) : Prop :=
  if IsPathPrefix r then ∃ rest, path = Path r ++ rest else path = Path r.

(** The guard, when present, returns true. *)
Definition guardPasses (r : ResourceDefinition) (ctx : Context) : Prop :=
  ∀ check, CheckFn r = Some check → check ctx = true.

Definition ruleMatches (ctx : Context) (origin : string)
    (r : ResourceDefinition) : Prop :=
  originMatches r origin ∧ pathMatches r (ctxPath ctx) ∧ guardPasses r ctx.

(** The data model's rule: an exact origin, the wildcard, or a
    pattern. *)
Definition originConfigured (r : ResourceDefinition) : Prop :=
  Origin r ≠ "" ∨ is_Some (OriginRegexp r).

(** The requested method, upper-cased (line 41), and the requested
    headers, split and trimmed (lines 56-64).  The request is a
    preflight that passed the checks of lines 41-81:
    method OPTIONS, a non-empty requested method that the rule allows,
    and requested headers, if any, for which [headersOk] holds. *)
Definition requestedMethod (req : Request) : string :=
  ToUpper (Header_Get (reqHeader req) acRequestMethod).

Definition requestedHeaders (req : Request) : list string :=
  splat (values (reqHeader req) acRequestHeaders).

Definition preflightAccepted (res : ResourceDefinition) (req : Request)
    : bool :=
  (Method req =? "OPTIONS") && negb (requestedMethod req =? "") &&
  methodFound (requestedMethod req) (Methods res) &&
  (negb (0 <? length (requestedHeaders req))%nat ||
   headersOk (requestedHeaders req) (Headers res)).

(** Splitting on commas and trimming, in the words of the
    specification.  The pieces of a value hold no comma and give the
    value back when joined by commas; an entry is its piece without
    the space bytes before and after it. *)
Definition splitsOnCommas (value : string) (pieces : list string) : Prop :=
  Join pieces "," = value ∧ Forall (fun p => holds "," p = false) pieces.

Definition trims (piece entry : string) : Prop :=
  (∃ l r, piece = l ++ entry ++ r ∧
          allBytes isSpace l = true ∧ allBytes isSpace r = true) ∧
  (∀ c t, entry = String c t → isSpace c = false) ∧
  (∀ c, lastByte entry = Some c → isSpace c = false).

(** Membership of a requested header in the allowed headers, compared
    case-insensitively (the specification's check of step 4b). *)
Definition allowedFold (allowed : list string) (h : string) : bool :=
  existsb (fun h2 => ToLower h =? ToLower h2) allowed.

(** Sample rules and requests. *)
Definition rule (origin path : string) (methods headers : list string)
    (credentials : bool) : ResourceDefinition :=
  {| Origin := origin; OriginRegexp := None; Path := path;
     IsPathPrefix := false; Headers := headers; Methods := methods;
     Expose := []; MaxAge := 0; Credentials := credentials; Vary := [];
     CheckFn := None |}.

Definition authorizedRule : ResourceDefinition :=
  rule "http://authorized.com" "/" ["GET"] ["foo"] false.

Definition wildcardRule : ResourceDefinition :=
  rule "*" "/" ["GET"] [] false.

(** A rule with a pattern (origins under https://) on a path prefix,
    guarded by a context value. *)
Definition patternRule : ResourceDefinition :=
  {| Origin := ""; OriginRegexp := Some (fun o => HasPrefix o "https://");
     Path := "/api"; IsPathPrefix := true; Headers := ["*"];
     Methods := ["GET"; "POST"]; Expose := ["X-Time"; "X-Rate"];
     MaxAge := 600; Credentials := true; Vary := ["Origin"; "Accept"];
     CheckFn := Some (fun ctx => bool_decide (ctxValues ctx !! "cors" = Some "on")) |}.

Definition sampleSpec : Specification :=
  [authorizedRule; patternRule; wildcardRule].

Definition request (method path : string)
    (header : list (string * list string)) : Request :=
  {| Method := method; URLPath := path; URLQuery := ∅;
     reqHeader := list_to_map header; Body := "" |}.

Definition rootContext : Context := {| ctxPath := "/"; ctxValues := ∅ |}.

Definition apiContext : Context :=
  {| ctxPath := "/api/users"; ctxValues := {["cors" := "on"]} |}.

Definition freshWriter : ResponseWriter :=
  {| rwHeader := ∅; rwStatus := None; rwBody := "" |}.

(** GET / from the authorized origin. *)
Definition simpleRequest : Request :=
  request "GET" "/" [("Origin", ["http://authorized.com"])].

(** GET / from some origin, against the wildcard rule. *)
Definition anyOriginRequest : Request :=
  request "GET" "/" [("Origin", ["http://a.com"])].

(** OPTIONS / asking for DELETE, which the rule does not allow. *)
Definition deleteRequest : Request :=
  request "OPTIONS" "/"
    [("Origin", ["http://authorized.com"]);
     (acRequestMethod, ["delete"])].

(** OPTIONS / asking for GET with the headers foo and bar; the rule
    allows foo only. *)
Definition twoHeadersRequest : Request :=
  request "OPTIONS" "/"
    [("Origin", ["http://authorized.com"]);
     (acRequestMethod, ["GET"]);
     (acRequestHeaders, ["foo, bar"])].

(** OPTIONS / asking for GET with the header foo, which the rule
    allows. *)
Definition fooRequest : Request :=
  request "OPTIONS" "/"
    [("Origin", ["http://authorized.com"]);
     (acRequestMethod, ["GET"]);
     (acRequestHeaders, ["foo"])].

(** The same preflight with the header name in upper case. *)
Definition upperCaseRequest : Request :=
  request "OPTIONS" "/"
    [("Origin", ["http://authorized.com"]);
     (acRequestMethod, ["GET"]);
     (acRequestHeaders, ["FOO"])].

(** OPTIONS / from some origin asking for GET, in lower case, and
    naming no header. *)
Definition wildcardPreflight : Request :=
  request "OPTIONS" "/"
    [("Origin", ["http://a.com"]); (acRequestMethod, ["get"])].

(** A request without Origin and X-Origin. *)
Definition sameOriginRequest : Request :=
  request "GET" "/" [("Accept", ["*/*"])].

End CorsSpec.

(** ** Sample data for the token gate *)
Module JwtSpec.
Import GoStrings Http Jwt.

(** A token library that accepts the token ["good"] only. *)
Definition sampleParse (tok : string) (key : string) : option Token * error :=
  if tok =? "good"
  then (Some {| Raw := tok; Valid := true; Claims := ∅ |}, None)
  else (Some {| Raw := tok; Valid := false; Claims := ∅ |},
        Some "signature is invalid").

Definition sampleSend (rw : ResponseWriter) (code : Z) (body : string)
    : go (error * ResponseWriter) :=
  Ret (None, writeResponse rw code body).

Definition sampleSpec (authOptions : bool) : Specification string :=
  {| TokenHeader := ""; TokenParam := ""; AllowParam := true;
     ValidationFunc := "secret"; AuthOptions := authOptions;
     TTLMinutes := 60; RefreshTTLMinutes := 1440; Issuer := "goa" |}.

Definition okHandler : Handler :=
  fun ctx rw req => Ret (None, writeResponse rw 200 "ok", req).

Definition emptyContext : Context := {| ctxValues := ∅ |}.

Definition freshWriter : ResponseWriter :=
  {| rwHeader := ∅; rwStatus := None; rwBody := "" |}.

(** OPTIONS /goo with a malformed Authorization header. *)
Definition optionsRequest : Request :=
  {| Method := "OPTIONS"; URLPath := "/goo"; URLQuery := ∅;
     reqHeader := {["Authorization" := ["garbage"]]}; Body := "" |}.

End JwtSpec.

(** ** The conditions of the header gate, in the words of its contract *)
Module HeaderGateSpec.
Import GoStrings Http HeaderGate.

(** The path is in scope: no path pattern, or the pattern matches. *)
Definition inScope (pathPattern : option Regexp) (path : string) : Prop :=
  pathPattern = None ∨ ∃ re, pathPattern = Some re ∧ re path = true.

(** The header fails the check: its value is empty, or there is a
    value pattern and it does not match. *)
Definition headerFails (requiredHeaderValue : option Regexp)
    (value : string) : Prop :=
  value = "" ∨ ∃ re, requiredHeaderValue = Some re ∧ re value = false.

(** The same two conditions, decided. *)
Definition gateCloses (pathPattern : option Regexp)
    (requiredHeaderName : string) (requiredHeaderValue : option Regexp)
    (req : Request) : bool :=
  match pathPattern with
  | None => true
  | Some re => re (URLPath req)
  end &&
  ((Header_Get (reqHeader req) requiredHeaderName =? "") ||
   match requiredHeaderValue with
   | None => false
   | Some re => negb (re (Header_Get (reqHeader req) requiredHeaderName))
   end).

Definition sampleContext (path : string)
    (header : list (string * list string)) : Context :=
  {| ctxRequest := {| Method := "GET"; URLPath := path; URLQuery := ∅;
                      reqHeader := list_to_map header; Body := "" |};
     ctxResponse := {| rwHeader := ∅; rwStatus := None; rwBody := "" |};
     ctxWrite := fun body => (body, None) |}.

(** A context whose connection is closed: nothing is written any more
    and [Write] returns an error. *)
Definition closedContext (path : string)
    (header : list (string * list string)) : Context :=
  {| ctxRequest := ctxRequest (sampleContext path header);
     ctxResponse := ctxResponse (sampleContext path header);
     ctxWrite := fun _ => ("", Some "write: broken pipe") |}.

Definition okHandler : Handler :=
  fun ctx => RespondBytes ctx 200 "ok".

End HeaderGateSpec.

(** ** Further functions of Go's [strings] and of its integers *)
Module GoMore.
Import GoStrings.

(** [strings.HasSuffix(s, suffix)]. *)
Fixpoint HasSuffix (s suffix : string) : bool :=
  (s =? suffix) ||
  match s with
  | EmptyString => false
  | String _ s' => HasSuffix s' suffix
  end.

(** Does some byte of the string satisfy the test. *)
Fixpoint anyByte (p : ascii → bool) (s : string) : bool :=
  match s with
  | EmptyString => false
  | String c s' => p c || anyByte p s'
  end.

(** How many times the byte occurs in the string. *)
Fixpoint countByte (b : ascii) (s : string) : nat :=
  match s with
  | EmptyString => 0
  | String c s' => (if Ascii.eqb c b then 1 else 0) + countByte b s'
  end.

(** The value of a 64-bit signed integer after an addition: Go wraps
    around. *)
Definition wrap64 (z : Z) : Z :=
  ((z + 2 ^ 63) mod 2 ^ 64 - 2 ^ 63)%Z.

End GoMore.

(** ** Package [cors]: the names of the response headers it writes *)
Module CorsNames.
Import Cors.

Definition corsHeaders : list string :=
  [acAllowOrigin; acAllowMethods; acAllowHeaders; acExposeHeaders;
   acMaxAge; acAllowCredentials].

End CorsNames.

(** ** Package [cors]: [MountPreflightController] *)
Module CorsMount.
Import GoStrings GoMore Http Cors.

(** goa's [ServeMux] as the function uses it: the handlers registered
    with [Handle], found again with [Lookup] under the same method and
    path; [Lookup] gives nil where nothing was registered. *)
Abbreviation Mux := (gmap (string * string) Handler).

Definition Lookup (mux : Mux) (method path : string) : option Handler :=
  mux !! (method, path).

Definition Handle (mux : Mux) (method path : string) (h : Handler) : Mux :=
  <[(method, path) := h]> mux.

(** Lines 112-119: the path a rule is mounted on. *)
Definition mountPath (res : ResourceDefinition) : string :=
  let path := Path res in
  if IsPathPrefix res
  then if HasSuffix path "/" then path ++ "*cors" else path ++ "/*cors"
  else path.

(** Lines 111-132: the loop over the rules; the handler it registers
    wraps the responder with the middleware of the whole
    specification. *)
Fixpoint mountLoop (spec rules : Specification) (mux : Mux) : Mux :=
  match rules with
  | [] => mux
  | res :: rest =>
      let path := mountPath res in
      let mux :=
        match Lookup mux "OPTIONS" path with
        | None => Handle mux "OPTIONS" path (Middleware spec preflightHandler)
        | Some _ => mux
        end in
      mountLoop spec rest mux
  end.

(** [MountPreflightController], lines 110-133. *)
Definition MountPreflightController (mux : Mux) (spec : Specification) : Mux :=
  mountLoop spec spec mux.

End CorsMount.

(** ** Package [middleware]: [RequestID] and [Recover]

    The handlers of this package take a [*goa.Context], which carries
    the request, the response, the values set with [SetValue] and the
    logger.  The counter [reqID] and the prefix [reqPrefix] are
    variables of the process; a handler may run the middleware again,
    so the process state is passed through handlers. *)
Module Pipeline.
Import GoStrings GoMore Http.

Definition ReqIDKey : Z := 1.
Definition RequestIDHeader := "X-Request-Id".

(** The variables [reqID] (an [int64]) and [reqPrefix]. *)
Record Process : Type := mkProcess {
  reqID : Z;
  reqPrefix : string
}.

(** The records written with [ctx.Logger.Error]: the message and the
    fields, each a text or a list of lines. *)
Inductive LogValue : Type :=
  | LogText (s : string)
  | LogLines (lines : list string).

Definition LogRecord : Type := string * list (string * LogValue).

(** [*goa.Context]: [ctxLogger] is [None] when [ctx.Logger] is nil. *)
Record Context : Type := mkContext {
  ctxRequest : Request;
  ctxResponse : ResponseWriter;
  ctxValues : gmap Z string;
  ctxLogger : option (list LogRecord)
}.

(** [ctx.SetValue(key, val)] and [ctx.Value(key)]. *)
Definition SetValue (ctx : Context) (key : Z) (val : string) : Context :=
  {| ctxRequest := ctxRequest ctx; ctxResponse := ctxResponse ctx;
     ctxValues := <[key := val]> (ctxValues ctx); ctxLogger := ctxLogger ctx |}.

Definition Value (ctx : Context) (key : Z) : option string :=
  ctxValues ctx !! key.

(** [ctx.RespondBytes(code, body)] of goa: writes the status code and
    the body to the response of the context. *)
Definition RespondBytes (ctx : Context) (code : Z) (body : string) : Context :=
  {| ctxRequest := ctxRequest ctx;
     ctxResponse := writeResponse (ctxResponse ctx) code body;
     ctxValues := ctxValues ctx; ctxLogger := ctxLogger ctx |}.

(** The value [recover()] gives after a panic: a string, an error (by
    its message), or another value. *)
Inductive PanicValue : Type :=
  | PanicString (s : string)
  | PanicError (msg : string)
  | PanicOther.

(** What running a handler gives: it returns its error, or it panics;
    either way the context and the process are as it left them. *)
Inductive Outcome : Type :=
  | Returned (err : error) (ctx : Context) (p : Process)
  | Panicked (v : PanicValue) (ctx : Context) (p : Process).

Definition Handler : Type := Process → Context → Outcome.

(** Lines 128-130: [atomic.AddInt64(&reqID, 1)] and the formatting of
    the identifier with ["%s-%d"]. *)
Definition nextID (p : Process) : string * Process :=
  let n := wrap64 (reqID p + 1) in
  (reqPrefix p ++ "-" ++ Itoa n, {| reqID := n; reqPrefix := reqPrefix p |}).

(** [RequestID], lines 124-136. *)
Definition RequestID : Handler → Handler :=
  fun h p ctx =>
    let id := Header_Get (reqHeader (ctxRequest ctx)) RequestIDHeader in
    let '(id, p) := if id =? "" then nextID p else (id, p) in
    h p (SetValue ctx ReqIDKey id).

(** The process after a request without an identifier of its own, and
    the identifier given to the request that follows [k] such
    requests. *)
Definition afterID (p : Process) : Process := snd (nextID p).

Definition idAfter (p : Process) (k : nat) : string :=
  fst (nextID (Nat.iter k afterID p)).

Definition StatusInternalServerError : Z := 500.

(** Lines 145-152: the error made of the recovered value. *)
Definition panicError (v : PanicValue) : string :=
  match v with
  | PanicString x => "panic: " ++ x
  | PanicError msg => msg
  | PanicOther => "unknown panic"
  end.

(** Lines 142-183, the deferred function once [recover()] gave a
    value.  [lines] is the text of [runtime.Stack] split on newlines;
    [lines[3:]] is out of range when there are fewer than three, and the
    function panics again.  The context is not nil. *)
Definition recovered (lines : list string) (v : PanicValue)
    (ctx : Context) (p : Process) : Outcome :=
  let err := panicError v in
  if (length lines <? 3)%nat
  then Panicked (PanicError "runtime error: slice bounds out of range") ctx p
  else
    let stack := drop 3 lines in
    let status := StatusInternalServerError in
    let message := "" in
    let '(message, ctx) :=
      match ctxLogger ctx with
      | Some log =>
          let message :=
            match Value ctx ReqIDKey with
            | Some reqID =>
                HeaderGate.StatusText status ++
                String "010"
                  "Refer to the following token when contacting support: "
                ++ reqID
            | None => message
            end in
          (message,
           {| ctxRequest := ctxRequest ctx; ctxResponse := ctxResponse ctx;
              ctxValues := ctxValues ctx;
              ctxLogger :=
                Some (log ++ [("panic", [("err", LogText err);
                                         ("stack", LogLines stack)])])%list |})
      | None => (message, ctx)
      end in
    let message := if message =? "" then err else message in
    Returned (Some err) (RespondBytes ctx status message) p.

(** [Recover], lines 139-187: the handler's result when it returns, the
    deferred function's when it panics. *)
Definition Recover (lines : list string) : Handler → Handler :=
  fun h p ctx =>
    match h p ctx with
    | Returned err ctx p => Returned err ctx p
    | Panicked v ctx p => recovered lines v ctx p
    end.

End Pipeline.

(** ** Further sample data *)
Module MoreSamples.
Import GoStrings GoMore Http.

Module CorsData.
Import Cors CorsSpec CorsMount.

(** The response and the request the middleware hands on for
    [simpleRequest]. *)
Definition simpleAnswer : ResponseWriter :=
  withRwHeader freshWriter
    (FillHeaders authorizedRule "http://authorized.com" (rwHeader freshWriter)).

Definition simpleRequestAfter : Request :=
  withReqHeader simpleRequest (applyVary authorizedRule (reqHeader simpleRequest)).

(** GET / from an origin no rule names. *)
Definition strangerRequest : Request :=
  request "GET" "/" [("Origin", ["http://nonauthorized.com"])].

(** A rule that lists its method in lower case, and a preflight for
    it. *)
Definition lowerCaseRule : ResourceDefinition :=
  rule "http://authorized.com" "/" ["get"] [] false.

(** OPTIONS / asking for GET and naming no header. *)
Definition bareRequest : Request :=
  request "OPTIONS" "/"
    [("Origin", ["http://authorized.com"]); (acRequestMethod, ["GET"])].

(** A rule without origin and without pattern. *)
Definition brokenRule : ResourceDefinition :=
  rule "" "/" ["GET"] [] false.

(** A mux on which the application handles OPTIONS / itself. *)
Definition ownHandler : Handler :=
  fun ctx rw req => Ret (None, writeResponse rw 204 "", req).

Definition sampleMux : Mux := Handle ∅ "OPTIONS" "/" ownHandler.

End CorsData.

Module JwtData.
Import Jwt JwtSpec.

(** POST /goo with a bearer token, and a token in the query string. *)
Definition bearerRequest : Request :=
  {| Method := "POST"; URLPath := "/goo";
     URLQuery := {["token" := ["other"]]};
     reqHeader := {["Authorization" := ["Bearer good"]]}; Body := "" |}.

End JwtData.

Module PipelineData.
Import Pipeline.

Definition sampleProcess : Process :=
  {| reqID := 41; reqPrefix := "hkTq3xVb9Z" |}.

Definition sampleContext : Context :=
  {| ctxRequest := {| Method := "GET"; URLPath := "/"; URLQuery := ∅;
                      reqHeader := ∅; Body := "" |};
     ctxResponse := {| rwHeader := ∅; rwStatus := None; rwBody := "" |};
     ctxValues := {[ReqIDKey := "hkTq3xVb9Z-42"]};
     ctxLogger := Some [] |}.

Definition panickingHandler : Handler :=
  fun p ctx => Panicked (PanicString "index out of range") ctx p.

Definition sampleLines : list string :=
  ["goroutine 7 [running]:"; "runtime.Stack()"; "  stack.go:24";
   "middleware.Recover.func1()"; "  middleware.go:155"].

End PipelineData.

End MoreSamples.

(** ** The string functions *)
Module GoStringsFacts.
Import GoStrings.

(** Joining the pieces of [Split] with the separator gives the string
    back, and no piece holds the separator. *)
Lemma Split_nonempty (s : string) (sep : ascii) : Split s sep ≠ [].
Proof.
  destruct s as [|c s]; simpl; [done|].
  destruct (Ascii.eqb c sep); [done|]. by destruct (Split s sep).
Qed.

Lemma Join_Split (s : string) (sep : ascii) :
  Join (Split s sep) (String sep EmptyString) = s.
Proof.
  unfold Join. induction s as [|c s IH]; simpl; [done|].
  destruct (Ascii.eqb_spec c sep) as [->|Hne].
  - pose proof (Split_nonempty s sep) as Hs.
    destruct (Split s sep) as [|piece pieces]; [done|].
    simpl. simpl in IH. by rewrite IH.
  - pose proof (Split_nonempty s sep) as Hs.
    destruct (Split s sep) as [|piece pieces]; [done|].
    simpl in *. destruct pieces; simpl in *; by rewrite <- IH.
Qed.

Lemma Split_pieces (s : string) (sep : ascii) :
  Forall (fun piece => holds sep piece = false) (Split s sep).
Proof.
  induction s as [|c s IH]; simpl; [by repeat constructor|].
  destruct (Ascii.eqb c sep) eqn:Hc; [by constructor|].
  destruct (Split s sep) as [|piece pieces]; [by repeat constructor; simpl; rewrite Hc|].
  inversion IH as [|? ? Hpiece Hpieces]; subst.
  constructor; [|done]. simpl. by rewrite Hc.
Qed.

(** A trimmed string neither starts nor ends with a space byte. *)
Lemma trimLeft_head (s : string) (c : ascii) (r : string) :
  trimLeft s = String c r → isSpace c = false.
Proof.
  induction s as [|d s IH]; simpl; [done|].
  destruct (isSpace d) eqn:Hd; [done|]. by intros [= <- <-].
Qed.

Lemma trimRight_head (s : string) (c : ascii) (r : string) :
  (∀ d t, s = String d t → isSpace d = false) →
  trimRight s = String c r → isSpace c = false.
Proof.
  destruct s as [|d s]; simpl; [done|].
  intros Hd. specialize (Hd d s eq_refl).
  destruct (trimRight s); [rewrite Hd|]; by intros [= <- <-].
Qed.

Lemma trimRight_last (s : string) (c : ascii) :
  lastByte (trimRight s) = Some c → isSpace c = false.
Proof.
  induction s as [|d s IH]; simpl; [done|].
  destruct (trimRight s) as [|e r] eqn:Hr.
  - destruct (isSpace d) eqn:Hd; simpl; [done|]. by intros [= <-].
  - intros Hl. apply IH. exact Hl.
Qed.

Lemma TrimSpace_trimmed (s : string) :
  (∀ c r, TrimSpace s = String c r → isSpace c = false) ∧
  (∀ c, lastByte (TrimSpace s) = Some c → isSpace c = false).
Proof.
  unfold TrimSpace. split.
  - intros c r. apply trimRight_head. intros d t. apply trimLeft_head.
  - intros c. apply trimRight_last.
Qed.

Example Split_commas :
  Split "X-Token, Accept ,,foo" "," = ["X-Token"; " Accept "; ""; "foo"] ∧
  Split "" "," = [""] ∧
  map TrimSpace (Split "X-Token, Accept ,,foo" ",") = ["X-Token"; "Accept"; ""; "foo"] ∧
  ToUpper "delete" = "DELETE" ∧
  Join ["GET"; "POST"] ", " = "GET, POST" ∧
  Itoa 600 = "600".
Proof. repeat split; reflexivity. Qed.

End GoStringsFacts.

(** ** CORS negotiation *)
Module CorsFacts.
Import GoStrings Http Cors CorsSpec.

Lemma HasPrefix_spec (s p : string) :
  HasPrefix s p = true ↔ ∃ rest, s = p ++ rest.
Proof.
  revert s. induction p as [|c p IH]; intros s; simpl.
  - split; [intros _; by exists s | done].
  - destruct s as [|d s]; simpl.
    + split; [done | intros [rest Hrest]; discriminate].
    + rewrite andb_true_iff, Ascii.eqb_eq, IH. split.
      * intros [-> [rest ->]]. by exists rest.
      * intros [rest Hrest]. injection Hrest as -> ->. eauto.
Qed.

Lemma PathMatches_spec (r : ResourceDefinition) (path : string) :
  PathMatches r path = true ↔ pathMatches r path.
Proof.
  unfold PathMatches, pathMatches. destruct (IsPathPrefix r).
  - apply HasPrefix_spec.
  - apply String.eqb_eq.
Qed.

Lemma OriginAllowed_spec (r : ResourceDefinition) (origin : string) :
  originConfigured r →
  ∃ b, OriginAllowed r origin = Ret b ∧ (b = true ↔ originMatches r origin).
Proof.
  intros Hcfg. unfold OriginAllowed, originMatches.
  destruct (String.eqb_spec (Origin r) "") as [Hempty|Hne]; simpl.
  - destruct Hcfg as [Hne|[re Hre]]; [done|]. rewrite Hre.
    exists (re origin). split; [done|]. split.
    + intros Hm. right. eauto.
    + intros [[Hne _]|[_ [re' [Heq Hm]]]]; [done|]. congruence.
  - eexists. split; [done|].
    rewrite orb_true_iff, !String.eqb_eq. split.
    + intros [Hw|He]; left; auto.
    + intros [[_ [He|Hw]]|[He _]]; auto. done.
Qed.

Lemma guard_spec (r : ResourceDefinition) (ctx : Context) :
  match CheckFn r with None => true | Some check => check ctx end = true
  ↔ guardPasses r ctx.
Proof.
  unfold guardPasses. destruct (CheckFn r) as [check|].
  - split; [intros H c [= <-]; done | eauto].
  - split; [intros _ c [=] | done].
Qed.

(** C7.  On a specification whose rules each have an exact origin or
    a pattern, [RequestResource] returns the first rule, in the order
    of the specification, whose origin matches, whose path matches
    and whose guard, if any, holds; it returns no rule when there is
    none. *)
Theorem C7_RequestResource_first_match
    (v : Specification) (ctx : Context) (origin : string) :
  Forall originConfigured v →
  ∃ m, RequestResource v ctx origin = Ret m ∧
    match m with
    | Some res =>
        ∃ before after, v = (before ++ res :: after)%list ∧
          Forall (fun r => ¬ ruleMatches ctx origin r) before ∧
          ruleMatches ctx origin res
    | None => Forall (fun r => ¬ ruleMatches ctx origin r) v
    end.
Proof.
  unfold RequestResource. induction 1 as [|r v Hr Hv IH]; simpl.
  - exists None. by split.
  - destruct (OriginAllowed_spec r origin Hr) as [b [-> Hb]]. simpl.
    pose proof (PathMatches_spec r (ctxPath ctx)) as Hp.
    pose proof (guard_spec r ctx) as Hg.
    assert (Hdec : (b && PathMatches r (ctxPath ctx)
              && match CheckFn r with None => true | Some c => c ctx end) = true
            ↔ ruleMatches ctx origin r).
    { unfold ruleMatches. rewrite !andb_true_iff. tauto. }
    destruct (b && PathMatches r (ctxPath ctx)) eqn:Hop; simpl in Hdec.
    + destruct (match CheckFn r with None => true | Some c => c ctx end) eqn:Hc.
      * exists (Some r). split; [done|]. exists [], v.
        split; [done|]. split; [constructor|]. by apply Hdec.
      * destruct IH as [m [-> Hm]]. exists m. split; [done|].
        assert (¬ ruleMatches ctx origin r) by (rewrite <- Hdec; done).
        destruct m as [res|].
        -- destruct Hm as (before & after & -> & Hbefore & Hres).
           exists (r :: before), after. split; [done|]. split; [by constructor|done].
        -- by constructor.
    + destruct IH as [m [-> Hm]]. exists m. split; [done|].
      assert (¬ ruleMatches ctx origin r) by (rewrite <- Hdec; done).
      destruct m as [res|].
      * destruct Hm as (before & after & -> & Hbefore & Hres).
        exists (r :: before), after. split; [done|]. split; [by constructor|done].
      * by constructor.
Qed.

Lemma C7_witness :
  Forall originConfigured sampleSpec ∧
  ∃ m, RequestResource sampleSpec apiContext "https://example.org" = Ret m ∧
    match m with
    | Some res =>
        ∃ before after, sampleSpec = (before ++ res :: after)%list ∧
          Forall (fun r => ¬ ruleMatches apiContext "https://example.org" r) before ∧
          ruleMatches apiContext "https://example.org" res
    | None =>
        Forall (fun r => ¬ ruleMatches apiContext "https://example.org" r) sampleSpec
    end.
Proof.
  assert (Hcfg : Forall originConfigured sampleSpec).
  { constructor; [left; discriminate|].
    constructor; [right; eexists; reflexivity|].
    constructor; [left; discriminate|]. constructor. }
  split; [exact Hcfg|].
  exact (C7_RequestResource_first_match sampleSpec apiContext
           "https://example.org" Hcfg).
Defined.

(** The second rule is the first that matches there: the first has
    another origin, and the wildcard rule comes later. *)
Example RequestResource_sample :
  RequestResource sampleSpec apiContext "https://example.org"
    = Ret (Some patternRule) ∧
  RequestResource sampleSpec rootContext "https://example.org"
    = Ret (Some wildcardRule) ∧
  RequestResource [authorizedRule] rootContext "http://nonauthorized.com"
    = Ret None.
Proof. repeat split; reflexivity. Qed.


(** [Itoa] writes decimal digits: reading them back gives the number. *)
Lemma Itoa_decimal (n : Z) :
  Z.of_int <$> NilZero.int_of_string (Itoa n) = Some n.
Proof.
  unfold Itoa. destruct n as [|p|p]; [done| |].
  - rewrite NilZero.isi; simpl; try (intros [= H]; by apply DecimalPos.Unsigned.to_uint_nonnil in H).
    f_equal. apply (DecimalZ.of_to (Z.pos p)).
  - rewrite NilZero.isi; simpl; try (intros [= H]; by apply DecimalPos.Unsigned.to_uint_nonnil in H).
    f_equal. apply (DecimalZ.of_to (Z.neg p)).
Qed.

Lemma Header_Set_lookup (h : Header) (key value k : string) :
  CanonicalMIMEHeaderKey key = key →
  Header_Set h key value !! k = if decide (k = key) then Some [value] else h !! k.
Proof.
  intros Hkey. unfold Header_Set. rewrite Hkey.
  case_decide as Hk.
  - subst k. apply lookup_insert_eq.
  - by apply lookup_insert_ne.
Qed.

Lemma canonical_acAllowOrigin : CanonicalMIMEHeaderKey acAllowOrigin = acAllowOrigin.
Proof. reflexivity. Qed.
Lemma canonical_acAllowMethods : CanonicalMIMEHeaderKey acAllowMethods = acAllowMethods.
Proof. reflexivity. Qed.
Lemma canonical_acAllowHeaders : CanonicalMIMEHeaderKey acAllowHeaders = acAllowHeaders.
Proof. reflexivity. Qed.
Lemma canonical_acExposeHeaders : CanonicalMIMEHeaderKey acExposeHeaders = acExposeHeaders.
Proof. reflexivity. Qed.
Lemma canonical_acMaxAge : CanonicalMIMEHeaderKey acMaxAge = acMaxAge.
Proof. reflexivity. Qed.
Lemma canonical_acAllowCredentials :
  CanonicalMIMEHeaderKey acAllowCredentials = acAllowCredentials.
Proof. reflexivity. Qed.

Lemma FillHeaders_lookup (res : ResourceDefinition) (origin : string)
    (dest : Header) (k : string) :
  FillHeaders res origin dest !! k =
    if decide (k = acAllowCredentials) then
      if Credentials res then Some ["true"] else dest !! k
    else if decide (k = acMaxAge) then
      if (0 <? MaxAge res)%Z then Some [Itoa (MaxAge res)] else dest !! k
    else if decide (k = acExposeHeaders) then
      if (0 <? length (Expose res))%nat
      then Some [Join (Expose res) ", "] else dest !! k
    else if decide (k = acAllowMethods) then Some [Join (Methods res) ", "]
    else if decide (k = acAllowOrigin) then Some [origin]
    else dest !! k.
Proof.
  unfold FillHeaders.
  destruct (Credentials res), (0 <? MaxAge res)%Z,
    (0 <? length (Expose res))%nat;
    rewrite ?(Header_Set_lookup _ _ _ _ canonical_acAllowCredentials),
      ?(Header_Set_lookup _ _ _ _ canonical_acMaxAge),
      ?(Header_Set_lookup _ _ _ _ canonical_acExposeHeaders),
      ?(Header_Set_lookup _ _ _ _ canonical_acAllowMethods),
      ?(Header_Set_lookup _ _ _ _ canonical_acAllowOrigin);
    repeat case_decide; subst; try done.
Qed.

Lemma withRwHeader_id (rw : ResponseWriter) : withRwHeader rw (rwHeader rw) = rw.
Proof. by destruct rw. Qed.

Lemma methodFound_In (acMethod : string) (methods : list string) :
  methodFound acMethod methods = true ↔ In acMethod methods.
Proof.
  unfold methodFound. rewrite existsb_exists. split.
  - intros [m [Hin Hm]]. apply String.eqb_eq in Hm. by subst.
  - intros Hin. exists acMethod. split; [done | apply String.eqb_refl].
Qed.

(** The state at the label [handleRequest] when a rule matched the
    origin. *)
Lemma preflight_matched (spec : Specification) (ctx : Context)
    (req : Request) (dest : Header) (res : ResourceDefinition) :
  requestOrigin (reqHeader req) ≠ "" →
  RequestResource spec ctx (requestOrigin (reqHeader req)) = Ret (Some res) →
  preflight spec ctx req dest =
    Ret (Some res,
         if preflightAccepted res req && (Origin res =? "*")
            && negb (Credentials res)
         then "*" else requestOrigin (reqHeader req),
         if preflightAccepted res req
         then Header_Set dest acAllowHeaders (Join (requestedHeaders req) ", ")
         else dest).
Proof.
  intros Horigin Hres. unfold preflight, preflightAccepted.
  apply String.eqb_neq in Horigin. rewrite Horigin, Hres. simpl.
  fold (requestedMethod req) (requestedHeaders req).
  destruct (Method req =? "OPTIONS"), (requestedMethod req =? ""); simpl; try done.
  destruct (methodFound (requestedMethod req) (Methods res)); simpl; [|done].
  destruct (0 <? length (requestedHeaders req))%nat; simpl.
  - by destruct (headersOk (requestedHeaders req) (Headers res)).
  - done.
Qed.

Lemma negotiate_matched (spec : Specification) (ctx : Context)
    (rw : ResponseWriter) (req : Request) (res : ResourceDefinition) :
  requestOrigin (reqHeader req) ≠ "" →
  RequestResource spec ctx (requestOrigin (reqHeader req)) = Ret (Some res) →
  negotiate spec ctx rw req =
    Ret (withRwHeader rw
           (FillHeaders res
              (if preflightAccepted res req && (Origin res =? "*")
                  && negb (Credentials res)
               then "*" else requestOrigin (reqHeader req))
              (if preflightAccepted res req
               then Header_Set (rwHeader rw) acAllowHeaders
                      (Join (requestedHeaders req) ", ")
               else rwHeader rw)),
         withReqHeader req (applyVary res (reqHeader req))).
Proof.
  intros Horigin Hres. unfold negotiate.
  by rewrite (preflight_matched _ _ _ _ _ Horigin Hres).
Qed.

Lemma Middleware_negotiate (spec : Specification) (h : Handler)
    (ctx : Context) (rw rw' : ResponseWriter) (req req' : Request) :
  negotiate spec ctx rw req = Ret (rw', req') →
  Middleware spec h ctx rw req = h ctx rw' req'.
Proof. intros Hn. unfold Middleware. by rewrite Hn. Qed.

(** C6.  A request with neither an Origin nor an X-Origin value goes
    to the next handler with the response writer exactly as the
    middleware received it: no response header is set, so no
    Access-Control header is. *)
Theorem C6_no_origin_no_cors_headers (spec : Specification) (h : Handler)
    (ctx : Context) (rw : ResponseWriter) (req : Request) :
  Header_Get (reqHeader req) "Origin" = "" →
  Header_Get (reqHeader req) "X-Origin" = "" →
  ∃ req', negotiate spec ctx rw req = Ret (rw, req') ∧
          Middleware spec h ctx rw req = h ctx rw req'.
Proof.
  intros Ho Hx.
  assert (Hn : ∃ req', negotiate spec ctx rw req = Ret (rw, req')).
  { unfold negotiate, preflight, requestOrigin. rewrite Ho. simpl. rewrite Hx.
    simpl. unfold handleRequest.
    destruct (PathResource spec (URLPath req)); rewrite withRwHeader_id; eauto. }
  destruct Hn as [req' Hn]. exists req'. split; [done|].
  by apply Middleware_negotiate.
Qed.

Lemma C6_witness :
  Header_Get (reqHeader sameOriginRequest) "Origin" = "" ∧
  Header_Get (reqHeader sameOriginRequest) "X-Origin" = "" ∧
  ∃ req', negotiate sampleSpec rootContext freshWriter sameOriginRequest
            = Ret (freshWriter, req') ∧
          Middleware sampleSpec preflightHandler rootContext freshWriter
            sameOriginRequest
            = preflightHandler rootContext freshWriter req'.
Proof.
  split; [reflexivity|]. split; [reflexivity|].
  apply (C6_no_origin_no_cors_headers sampleSpec preflightHandler
           rootContext freshWriter sameOriginRequest); reflexivity.
Defined.

Lemma headerLoop_true (h : string) (allowed : list string) :
  headerLoop h allowed true = true.
Proof.
  induction allowed as [|h2 allowed IH]; cbn [headerLoop]; [done|].
  by destruct ((h2 =? "*") || (h =? h2)).
Qed.

Lemma headersLoop_true (headers allowed : list string) :
  headersLoop headers allowed true = true.
Proof.
  induction headers as [|h rest IH]; cbn [headersLoop]; [done|].
  by rewrite headerLoop_true.
Qed.

(** Only the first requested header decides: once [ok] is set it is
    never cleared. *)
Lemma headersOk_first (h : string) (rest allowed : list string) :
  headersOk (h :: rest) allowed = headerLoop h allowed false.
Proof.
  unfold headersOk. cbn [headersLoop].
  destruct (headerLoop h allowed false); cbn [negb]; [apply headersLoop_true | done].
Qed.

Lemma headerLoop_false (h : string) (allowed : list string) :
  headerLoop h allowed false = existsb (fun h2 => (h2 =? "*") || (h =? h2)) allowed.
Proof.
  induction allowed as [|h2 allowed IH]; cbn [headerLoop existsb]; [done|].
  by destruct ((h2 =? "*") || (h =? h2)).
Qed.

Lemma applyVary_lookup (res : ResourceDefinition) (header : Header) (k : string) :
  k ≠ "Vary" → applyVary res header !! k = header !! k.
Proof. intros Hk. unfold applyVary. by apply lookup_insert_ne. Qed.

(** The response's Vary header is never written. *)
Lemma response_Vary_untouched (spec : Specification) (ctx : Context)
    (rw rw' : ResponseWriter) (req req' : Request) :
  negotiate spec ctx rw req = Ret (rw', req') →
  rwHeader rw' !! "Vary" = rwHeader rw !! "Vary".
Proof.
  unfold negotiate, preflight.
  destruct (negb (requestOrigin (reqHeader req) =? "")); simpl.
  - destruct (RequestResource spec ctx (requestOrigin (reqHeader req)))
      as [[res|]|]; simpl; [| |done].
    + repeat match goal with
             | |- context [if ?b then _ else _] => destruct b; simpl
             end;
        intros [= <- <-]; simpl; rewrite FillHeaders_lookup;
        repeat case_decide; try done;
        by rewrite (Header_Set_lookup _ _ _ _ canonical_acAllowHeaders).
    + unfold handleRequest.
      destruct (PathResource spec (URLPath req)); by intros [= <- <-].
  - unfold handleRequest.
    destruct (PathResource spec (URLPath req)); by intros [= <- <-].
Qed.

(** What the middleware leaves alone in the request: everything but
    the Vary entry of its header map. *)
Lemma request_frame (spec : Specification) (ctx : Context)
    (rw rw' : ResponseWriter) (req req' : Request) :
  negotiate spec ctx rw req = Ret (rw', req') →
  Method req' = Method req ∧ URLPath req' = URLPath req ∧
  URLQuery req' = URLQuery req ∧ Body req' = Body req ∧
  ∀ k, k ≠ "Vary" → reqHeader req' !! k = reqHeader req !! k.
Proof.
  unfold negotiate. destruct (preflight spec ctx req (rwHeader rw))
    as [[[res originHeader] dest]|]; simpl; [|done].
  unfold handleRequest.
  destruct res as [r|]; [|destruct (PathResource spec (URLPath req)) as [r|]];
    intros [= <- <-]; simpl; repeat split; try done.
  all: intros k Hk; by apply applyVary_lookup.
Qed.

(** C8.  [FillHeaders] leaves Access-Control-Expose-Headers as it was
    when the rule exposes no header and sets it to the joined list
    otherwise; leaves Access-Control-Max-Age as it was unless
    [MaxAge] is strictly positive, and then sets it to the decimal
    string of [MaxAge]; sets Access-Control-Allow-Credentials to
    ["true"] when [Credentials] holds and leaves it as it was
    otherwise, so that it never writes ["false"]. *)
Theorem C8_FillHeaders_optional_headers (res : ResourceDefinition)
    (origin : string) (dest : Header) :
  FillHeaders res origin dest !! acExposeHeaders =
    match Expose res with
    | [] => dest !! acExposeHeaders
    | _ :: _ => Some [Join (Expose res) ", "]
    end ∧
  FillHeaders res origin dest !! acMaxAge =
    (if decide (0 < MaxAge res)%Z
     then Some [Itoa (MaxAge res)] else dest !! acMaxAge) ∧
  (∀ n, Z.of_int <$> NilZero.int_of_string (Itoa n) = Some n) ∧
  FillHeaders res origin dest !! acAllowCredentials =
    (if Credentials res then Some ["true"] else dest !! acAllowCredentials).
Proof.
  rewrite !FillHeaders_lookup. split; [|split; [|split]].
  - repeat case_decide; try done. by destruct (Expose res).
  - repeat case_decide; try done;
      destruct (Z.ltb_spec 0 (MaxAge res)); try done; lia.
  - apply Itoa_decimal.
  - by repeat case_decide.
Qed.

(** The requested headers pass the loops of lines 66-77 when each is
    equal to an allowed header or ["*"] is allowed. *)
Lemma headersOk_all (headers allowed : list string) :
  headers ≠ [] →
  Forall (fun h => In "*" allowed ∨ In h allowed) headers →
  headersOk headers allowed = true.
Proof.
  destruct headers as [|h rest]; [done|]. intros _ Hall.
  rewrite headersOk_first, headerLoop_false, existsb_exists.
  apply Forall_inv in Hall. destruct Hall as [Hstar|Hin].
  - exists "*". split; [done|]. by rewrite String.eqb_refl.
  - exists h. split; [done|]. by rewrite String.eqb_refl, orb_true_r.
Qed.

(** They fail them when the first is neither. *)
Lemma headersOk_first_refused (h : string) (rest allowed : list string) :
  ¬ In "*" allowed → ¬ In h allowed →
  headersOk (h :: rest) allowed = false.
Proof.
  intros Hstar Hin. rewrite headersOk_first, headerLoop_false.
  apply not_true_is_false. rewrite existsb_exists.
  intros [h2 [Hh2 Heq]]. apply orb_true_iff in Heq.
  destruct Heq as [Heq|Heq]; apply String.eqb_eq in Heq; by subst.
Qed.

(** C1 as it is stated fails.  The header FOO is in the allowed headers
    when letter case is ignored, and the preflight asking for it is
    abandoned: the comparison of line 69 is an equality of strings.
    And the preflight asking for foo and bar, where bar is not allowed
    under any letter case, is accepted. *)
Lemma C1_counterexample :
  (requestedHeaders upperCaseRequest = ["FOO"] ∧
   Headers authorizedRule = ["foo"] ∧
   forallb (allowedFold (Headers authorizedRule))
     (requestedHeaders upperCaseRequest) = true ∧
   preflightAccepted authorizedRule upperCaseRequest = false ∧
   ∃ rw' req',
     negotiate [authorizedRule] rootContext freshWriter upperCaseRequest
       = Ret (rw', req') ∧
     rwHeader rw' !! acAllowHeaders = None) ∧
  (requestedHeaders twoHeadersRequest = ["foo"; "bar"] ∧
   allowedFold (Headers authorizedRule) "bar" = false ∧
   preflightAccepted authorizedRule twoHeadersRequest = true ∧
   ∃ rw' req',
     negotiate [authorizedRule] rootContext freshWriter twoHeadersRequest
       = Ret (rw', req') ∧
     rwHeader rw' !! acAllowHeaders = Some ["foo, bar"]).
Proof.
  split.
  - repeat (split; [reflexivity|]). eexists _, _. split; reflexivity.
  - repeat (split; [reflexivity|]). eexists _, _. split; reflexivity.
Qed.

(** C2, as amended.  When the requested method of a preflight, an
    ASCII value, is after upper-casing not one of the matched rule's
    methods, the middleware does not write
    Access-Control-Allow-Headers, and fills the rule's headers as for
    any request the rule matched, with the request's origin as
    Access-Control-Allow-Origin; the next handler is then called. *)
Theorem C2_disallowed_method_keeps_rule_headers (spec : Specification)
    (h : Handler) (ctx : Context) (rw : ResponseWriter) (req : Request)
    (res : ResourceDefinition) :
  requestOrigin (reqHeader req) ≠ "" →
  RequestResource spec ctx (requestOrigin (reqHeader req)) = Ret (Some res) →
  Method req = "OPTIONS" →
  isASCII (Header_Get (reqHeader req) acRequestMethod) = true →
  requestedMethod req ≠ "" →
  ¬ In (requestedMethod req) (Methods res) →
  ∃ rw' req',
    negotiate spec ctx rw req = Ret (rw', req') ∧
    Middleware spec h ctx rw req = h ctx rw' req' ∧
    rwHeader rw' = FillHeaders res (requestOrigin (reqHeader req)) (rwHeader rw) ∧
    rwStatus rw' = rwStatus rw ∧ rwBody rw' = rwBody rw ∧
    rwHeader rw' !! acAllowHeaders = rwHeader rw !! acAllowHeaders ∧
    rwHeader rw' !! acAllowOrigin = Some [requestOrigin (reqHeader req)] ∧
    rwHeader rw' !! acAllowMethods = Some [Join (Methods res) ", "].
Proof.
  intros Horigin Hres Hmethod _ Hac Hnot.
  pose proof (negotiate_matched spec ctx rw req res Horigin Hres) as Hn.
  assert (Hacc : preflightAccepted res req = false).
  { unfold preflightAccepted.
    destruct (methodFound (requestedMethod req) (Methods res)) eqn:Hf.
    - by apply methodFound_In in Hf.
    - by rewrite andb_false_r. }
  rewrite Hacc in Hn. simpl in Hn.
  eexists _, _. split; [exact Hn|]. split; [by apply Middleware_negotiate|].
  simpl. rewrite !FillHeaders_lookup. by repeat case_decide.
Qed.

Lemma C2_witness :
  requestOrigin (reqHeader deleteRequest) ≠ "" ∧
  RequestResource [authorizedRule] rootContext
    (requestOrigin (reqHeader deleteRequest)) = Ret (Some authorizedRule) ∧
  Method deleteRequest = "OPTIONS" ∧
  isASCII (Header_Get (reqHeader deleteRequest) acRequestMethod) = true ∧
  requestedMethod deleteRequest ≠ "" ∧
  ¬ In (requestedMethod deleteRequest) (Methods authorizedRule) ∧
  ∃ rw' req',
    negotiate [authorizedRule] rootContext freshWriter deleteRequest
      = Ret (rw', req') ∧
    Middleware [authorizedRule] preflightHandler rootContext freshWriter
      deleteRequest = preflightHandler rootContext rw' req' ∧
    rwHeader rw' = FillHeaders authorizedRule
                     (requestOrigin (reqHeader deleteRequest))
                     (rwHeader freshWriter) ∧
    rwStatus rw' = rwStatus freshWriter ∧ rwBody rw' = rwBody freshWriter ∧
    rwHeader rw' !! acAllowHeaders = rwHeader freshWriter !! acAllowHeaders ∧
    rwHeader rw' !! acAllowOrigin
      = Some [requestOrigin (reqHeader deleteRequest)] ∧
    rwHeader rw' !! acAllowMethods
      = Some [Join (Methods authorizedRule) ", "].
Proof.
  assert (H1 : requestOrigin (reqHeader deleteRequest) ≠ "") by discriminate.
  assert (H2 : RequestResource [authorizedRule] rootContext
                 (requestOrigin (reqHeader deleteRequest))
               = Ret (Some authorizedRule)) by reflexivity.
  assert (H3 : Method deleteRequest = "OPTIONS") by reflexivity.
  assert (Ha : isASCII (Header_Get (reqHeader deleteRequest) acRequestMethod)
               = true) by reflexivity.
  assert (H4 : requestedMethod deleteRequest ≠ "") by discriminate.
  assert (H5 : ¬ In (requestedMethod deleteRequest) (Methods authorizedRule)).
  { intros [H|[]]. discriminate H. }
  repeat (split; [assumption|]).
  exact (C2_disallowed_method_keeps_rule_headers [authorizedRule]
           preflightHandler rootContext freshWriter deleteRequest
           authorizedRule H1 H2 H3 Ha H4 H5).
Defined.

(** C2 as it is stated fails: the rule matches, the request is a
    preflight asking for DELETE, the rule allows GET only, and the
    response, which had no header, now carries
    Access-Control-Allow-Origin and Access-Control-Allow-Methods. *)
Lemma C2_counterexample :
  RequestResource [authorizedRule] rootContext
    (requestOrigin (reqHeader deleteRequest)) = Ret (Some authorizedRule) ∧
  Method deleteRequest = "OPTIONS" ∧
  requestedMethod deleteRequest = "DELETE" ∧
  Methods authorizedRule = ["GET"] ∧
  rwHeader freshWriter = ∅ ∧
  ∃ rw' req',
    negotiate [authorizedRule] rootContext freshWriter deleteRequest
      = Ret (rw', req') ∧
    rwHeader rw' !! acAllowOrigin = Some ["http://authorized.com"] ∧
    rwHeader rw' !! acAllowMethods = Some ["GET"].
Proof.
  repeat (split; [reflexivity|]).
  eexists _, _. repeat split; reflexivity.
Qed.

(** C3.  On a plain GET from the authorized origin the rule matches;
    the response's Vary header stays absent and the value Origin is
    stored in the Vary entry of the request's header map. *)
Theorem C3_vary_written_to_request :
  RequestResource [authorizedRule] rootContext
    (requestOrigin (reqHeader simpleRequest)) = Ret (Some authorizedRule) ∧
  ∃ rw' req',
    negotiate [authorizedRule] rootContext freshWriter simpleRequest
      = Ret (rw', req') ∧
    rwHeader rw' !! "Vary" = None ∧
    reqHeader req' !! "Vary" = Some ["Origin"].
Proof. split; [reflexivity|]. eexists _, _. repeat split; reflexivity. Qed.

(** C4.  On the same request the middleware changes the incoming
    request: its header map has no Vary entry before the call and one
    after it. *)
Theorem C4_request_header_mutated :
  reqHeader simpleRequest !! "Vary" = None ∧
  ∃ rw' req',
    negotiate [authorizedRule] rootContext freshWriter simpleRequest
      = Ret (rw', req') ∧
    reqHeader req' !! "Vary" = Some ["Origin"] ∧
    reqHeader req' ≠ reqHeader simpleRequest ∧
    req' ≠ simpleRequest.
Proof.
  split; [reflexivity|]. eexists _, _. split; [reflexivity|].
  split; [reflexivity|].
  assert (Hne : ∀ a b : Request,
             reqHeader a !! "Vary" ≠ reqHeader b !! "Vary" → reqHeader a ≠ reqHeader b ∧ a ≠ b).
  { intros a b Hv. split; intros Heq; apply Hv; by rewrite Heq. }
  apply Hne. discriminate.
Qed.

(** C5, as amended.  When a rule matched the request's origin, the
    Access-Control-Allow-Origin written is the request's origin as
    received whenever the rule allows credentials, whenever the rule's
    origin is not ["*"], and whenever the request is not a preflight
    (its method is not OPTIONS, or it names no requested method).  For
    ASCII values of the two request headers of a preflight, it is ["*"]
    if the preflight is accepted, the rule's origin is ["*"] and the
    rule does not allow credentials, and the request's origin in every
    other case. *)
Theorem C5_allow_origin_value (spec : Specification) (ctx : Context)
    (rw : ResponseWriter) (req : Request) (res : ResourceDefinition) :
  requestOrigin (reqHeader req) ≠ "" →
  RequestResource spec ctx (requestOrigin (reqHeader req)) = Ret (Some res) →
  ∃ rw' req',
    negotiate spec ctx rw req = Ret (rw', req') ∧
    (Credentials res = true →
     rwHeader rw' !! acAllowOrigin = Some [requestOrigin (reqHeader req)]) ∧
    (Origin res ≠ "*" →
     rwHeader rw' !! acAllowOrigin = Some [requestOrigin (reqHeader req)]) ∧
    (Method req ≠ "OPTIONS" ∨ Header_Get (reqHeader req) acRequestMethod = "" →
     rwHeader rw' !! acAllowOrigin = Some [requestOrigin (reqHeader req)]) ∧
    (isASCII (Header_Get (reqHeader req) acRequestMethod) = true →
     Forall (fun v => isASCII v = true)
       (values (reqHeader req) acRequestHeaders) →
     rwHeader rw' !! acAllowOrigin =
       Some [if preflightAccepted res req && (Origin res =? "*")
                && negb (Credentials res)
             then "*" else requestOrigin (reqHeader req)] ∧
     (preflightAccepted res req = true → Origin res = "*" →
      Credentials res = false → rwHeader rw' !! acAllowOrigin = Some ["*"]) ∧
     (preflightAccepted res req = false →
      rwHeader rw' !! acAllowOrigin = Some [requestOrigin (reqHeader req)])).
Proof.
  intros Horigin Hres.
  eexists _, _. split; [exact (negotiate_matched spec ctx rw req res Horigin Hres)|].
  simpl. rewrite !FillHeaders_lookup.
  repeat case_decide; try done.
  split; [|split; [|split]].
  - intros ->. by rewrite andb_false_r.
  - intros Hstar. apply String.eqb_neq in Hstar.
    by rewrite Hstar, andb_false_r.
  - intros Hplain.
    assert (Hacc : preflightAccepted res req = false); [|by rewrite Hacc].
    unfold preflightAccepted, requestedMethod.
    destruct Hplain as [Hm| ->].
    + apply String.eqb_neq in Hm. by rewrite Hm.
    + by rewrite andb_false_r.
  - intros _ _. split; [done|]. split.
    + intros -> -> ->. done.
    + intros ->. done.
Qed.

Lemma C5_witness :
  requestOrigin (reqHeader wildcardPreflight) ≠ "" ∧
  RequestResource [wildcardRule] rootContext
    (requestOrigin (reqHeader wildcardPreflight)) = Ret (Some wildcardRule) ∧
  isASCII (Header_Get (reqHeader wildcardPreflight) acRequestMethod) = true ∧
  Forall (fun v => isASCII v = true)
    (values (reqHeader wildcardPreflight) acRequestHeaders) ∧
  preflightAccepted wildcardRule wildcardPreflight = true ∧
  ∃ rw' req',
    negotiate [wildcardRule] rootContext freshWriter wildcardPreflight
      = Ret (rw', req') ∧
    rwHeader rw' !! acAllowOrigin = Some ["*"].
Proof.
  assert (H1 : requestOrigin (reqHeader wildcardPreflight) ≠ "") by discriminate.
  assert (H2 : RequestResource [wildcardRule] rootContext
                 (requestOrigin (reqHeader wildcardPreflight))
               = Ret (Some wildcardRule)) by reflexivity.
  assert (H3 : isASCII (Header_Get (reqHeader wildcardPreflight)
                          acRequestMethod) = true) by reflexivity.
  assert (H4 : Forall (fun v => isASCII v = true)
                 (values (reqHeader wildcardPreflight) acRequestHeaders))
    by constructor.
  assert (H5 : preflightAccepted wildcardRule wildcardPreflight = true)
    by reflexivity.
  repeat (split; [assumption|]).
  destruct (C5_allow_origin_value [wildcardRule] rootContext freshWriter
              wildcardPreflight wildcardRule H1 H2)
    as (rw' & req' & Hn & _ & _ & _ & Hascii).
  exists rw', req'. split; [exact Hn|].
  destruct (Hascii H3 H4) as (_ & Hstar & _).
  by apply Hstar.
Defined.

(** C5 as it is stated fails: the rule's origin is ["*"], it does not
    allow credentials, it matches a plain GET from http://a.com, and
    the Access-Control-Allow-Origin written is that origin, not
    ["*"]. *)
Lemma C5_counterexample :
  RequestResource [wildcardRule] rootContext
    (requestOrigin (reqHeader anyOriginRequest)) = Ret (Some wildcardRule) ∧
  Origin wildcardRule = "*" ∧
  Credentials wildcardRule = false ∧
  ∃ rw' req',
    negotiate [wildcardRule] rootContext freshWriter anyOriginRequest
      = Ret (rw', req') ∧
    rwHeader rw' !! acAllowOrigin = Some ["http://a.com"] ∧
    rwHeader rw' !! acAllowOrigin ≠ Some ["*"].
Proof.
  repeat (split; [reflexivity|]).
  eexists _, _. split; [reflexivity|]. split; [reflexivity|]. discriminate.
Qed.

(** An accepted preflight against the same rule is answered with the
    wildcard. *)
Example wildcard_on_accepted_preflight :
  ∃ rw' req',
    negotiate [wildcardRule] rootContext freshWriter
      (request "OPTIONS" "/"
         [("Origin", ["http://a.com"]); (acRequestMethod, ["get"])])
      = Ret (rw', req') ∧
    rwHeader rw' !! acAllowOrigin = Some ["*"] ∧
    rwHeader rw' !! acAllowHeaders = Some [""].
Proof. eexists _, _. repeat split; reflexivity. Qed.
End CorsFacts.

(** ** The token gate *)
Module JwtFacts.
Import GoStrings Http Jwt JwtSpec.

(** C9.  With [AuthOptions] false, an OPTIONS request goes to the next
    handler as it came, with the context it came with, whatever the
    token library and the response sender would do and whatever token
    the request carries: the outcome is the next handler's alone, so
    neither of the middleware's 401 responses is sent. *)
Theorem C9_options_bypass {Keyfunc : Type}
    (Parse : string → Keyfunc → option Token * error)
    (Send : ResponseWriter → Z → string → go (error * ResponseWriter))
    (spec : Specification Keyfunc) (h : Handler)
    (ctx : Context) (rw : ResponseWriter) (req : Request) :
  AuthOptions spec = false →
  Method req = "OPTIONS" →
  Middleware Parse Send spec h ctx rw req = h ctx rw req.
Proof.
  intros Hopt Hmethod. unfold Middleware. simpl.
  by rewrite Hopt, Hmethod.
Qed.

Lemma C9_witness :
  AuthOptions (sampleSpec false) = false ∧
  Method optionsRequest = "OPTIONS" ∧
  Middleware sampleParse sampleSend (sampleSpec false) okHandler
    emptyContext freshWriter optionsRequest
  = Ret (None, writeResponse freshWriter 200 "ok", optionsRequest).
Proof.
  split; [reflexivity|]. split; [reflexivity|].
  rewrite (C9_options_bypass sampleParse sampleSend (sampleSpec false)
             okHandler emptyContext freshWriter optionsRequest);
    reflexivity.
Defined.

(** With [AuthOptions] true the same request is answered 401 by the
    middleware. *)
Example options_checked_when_AuthOptions :
  Middleware sampleParse sampleSend (sampleSpec true) okHandler
    emptyContext freshWriter optionsRequest
  = Ret (None, writeResponse freshWriter 401 "Unauthorized", optionsRequest).
Proof. reflexivity. Qed.

End JwtFacts.

(** ** The header gate *)
Module HeaderGateFacts.
Import GoStrings Http HeaderGate HeaderGateSpec.

Lemma length_pos_nonempty (s : string) :
  (0 <? String.length s)%nat = negb (s =? "").
Proof. by destruct s. Qed.

Lemma gateCloses_spec (pathPattern : option Regexp)
    (requiredHeaderName : string) (requiredHeaderValue : option Regexp)
    (req : Request) :
  gateCloses pathPattern requiredHeaderName requiredHeaderValue req = true ↔
  inScope pathPattern (URLPath req) ∧
  headerFails requiredHeaderValue (Header_Get (reqHeader req) requiredHeaderName).
Proof.
  unfold gateCloses, inScope, headerFails.
  rewrite andb_true_iff, orb_true_iff, String.eqb_eq.
  split.
  - intros [Hp Hh]. split.
    + destruct pathPattern as [re|]; [right; eauto | by left].
    + destruct Hh as [Hh|Hh]; [by left|].
      destruct requiredHeaderValue as [re|]; [|done].
      right. exists re. split; [done|]. by apply negb_true_iff.
  - intros [Hp Hh]. split.
    + destruct Hp as [->|[re [-> Hre]]]; done.
    + destruct Hh as [Hh|[re [-> Hre]]]; [by left|].
      right. by rewrite Hre.
Qed.

(** What [RespondBytes] leaves: the status, unless one was written
    before, the bytes the connection took, and the error of the
    write. *)
Lemma RespondBytes_value (ctx : Context) (code : Z) (body : string) :
  RespondBytes ctx code body =
  Ret (snd (ctxWrite ctx body),
       {| ctxRequest := ctxRequest ctx;
          ctxResponse :=
            {| rwHeader := rwHeader (ctxResponse ctx);
               rwStatus := Some (default code (rwStatus (ctxResponse ctx)));
               rwBody := rwBody (ctxResponse ctx) ++ fst (ctxWrite ctx body) |};
          ctxWrite := ctxWrite ctx |}).
Proof.
  unfold RespondBytes, writeResponse.
  destruct (ctxWrite ctx body) as [written err]. simpl.
  by destruct (rwStatus (ctxResponse ctx)).
Qed.

(** The middleware either responds itself or hands over, by
    [gateCloses]. *)
Lemma RequireHeader_cases (pathPattern : option Regexp)
    (requiredHeaderName : string) (requiredHeaderValue : option Regexp)
    (failureStatus : Z) (h : Handler) (ctx : Context) :
  RequireHeader pathPattern requiredHeaderName requiredHeaderValue
    failureStatus h ctx =
  if gateCloses pathPattern requiredHeaderName requiredHeaderValue
       (ctxRequest ctx)
  then RespondBytes ctx failureStatus (StatusText failureStatus)
  else h ctx.
Proof.
  unfold RequireHeader, gateCloses. rewrite length_pos_nonempty.
  destruct pathPattern as [re|]; [destruct (re _)|]; simpl; try done;
    destruct (Header_Get _ _ =? ""); simpl; try done;
    destruct requiredHeaderValue as [rv|]; try done;
    by destruct (rv _).
Qed.

(** C10.  Whatever the next handler is, [RequireHeader] answers itself
    exactly when the path is in scope and the header fails the check:
    the response then has the status [failureStatus] (unless a status
    was written before), its body gains the bytes of the status text
    that the connection took, the request and the response headers are
    as received, and the error returned is the error of that write.  It
    returns what the next handler returns on the context as received
    exactly when that is not the case.  So on a context without status
    whose connection takes the text, a refusal is the status
    [failureStatus] with the status text as body and a nil error; the
    text of 400 is Bad Request, of 401 Unauthorized, of 403
    Forbidden. *)
Theorem C10_RequireHeader_gate (pathPattern : option Regexp)
    (requiredHeaderName : string) (requiredHeaderValue : option Regexp)
    (failureStatus : Z) (ctx : Context) :
  ((∀ h, RequireHeader pathPattern requiredHeaderName requiredHeaderValue
           failureStatus h ctx
         = Ret (snd (ctxWrite ctx (StatusText failureStatus)),
                {| ctxRequest := ctxRequest ctx;
                   ctxResponse :=
                     {| rwHeader := rwHeader (ctxResponse ctx);
                        rwStatus :=
                          Some (default failureStatus
                                  (rwStatus (ctxResponse ctx)));
                        rwBody :=
                          rwBody (ctxResponse ctx) ++
                          fst (ctxWrite ctx (StatusText failureStatus)) |};
                   ctxWrite := ctxWrite ctx |}))
   ↔ (inScope pathPattern (URLPath (ctxRequest ctx)) ∧
      headerFails requiredHeaderValue
        (Header_Get (reqHeader (ctxRequest ctx)) requiredHeaderName))) ∧
  ((∀ h, RequireHeader pathPattern requiredHeaderName requiredHeaderValue
           failureStatus h ctx = h ctx)
   ↔ ¬ (inScope pathPattern (URLPath (ctxRequest ctx)) ∧
        headerFails requiredHeaderValue
          (Header_Get (reqHeader (ctxRequest ctx)) requiredHeaderName))) ∧
  (inScope pathPattern (URLPath (ctxRequest ctx)) →
   headerFails requiredHeaderValue
     (Header_Get (reqHeader (ctxRequest ctx)) requiredHeaderName) →
   rwStatus (ctxResponse ctx) = None →
   ctxWrite ctx (StatusText failureStatus)
     = (StatusText failureStatus, None) →
   ∀ h, RequireHeader pathPattern requiredHeaderName requiredHeaderValue
          failureStatus h ctx
        = Ret (None,
               {| ctxRequest := ctxRequest ctx;
                  ctxResponse :=
                    {| rwHeader := rwHeader (ctxResponse ctx);
                       rwStatus := Some failureStatus;
                       rwBody := rwBody (ctxResponse ctx) ++
                                 StatusText failureStatus |};
                  ctxWrite := ctxWrite ctx |})) ∧
  (StatusText 400 = "Bad Request" ∧ StatusText 401 = "Unauthorized" ∧
   StatusText 403 = "Forbidden").
Proof.
  rewrite <- gateCloses_spec.
  split; [|split; [|split; [|done]]].
  - destruct (gateCloses pathPattern requiredHeaderName requiredHeaderValue
                (ctxRequest ctx)) eqn:Hgate.
    + split; [done|]. intros _ h.
      by rewrite RequireHeader_cases, Hgate, RespondBytes_value.
    + split; [|done]. intros Hall. specialize (Hall (fun _ => Panic)).
      rewrite RequireHeader_cases, Hgate in Hall. discriminate.
  - destruct (gateCloses pathPattern requiredHeaderName requiredHeaderValue
                (ctxRequest ctx)) eqn:Hgate.
    + split; [|done]. intros Hall. specialize (Hall (fun _ => Panic)).
      rewrite RequireHeader_cases, Hgate, RespondBytes_value in Hall.
      discriminate.
    + split; [done|]. intros _ h. by rewrite RequireHeader_cases, Hgate.
  - intros Hscope Hfails Hstatus Hwrite h.
    assert (Hgate : gateCloses pathPattern requiredHeaderName
                      requiredHeaderValue (ctxRequest ctx) = true)
      by (by apply gateCloses_spec).
    by rewrite RequireHeader_cases, Hgate, RespondBytes_value, Hwrite, Hstatus.
Qed.

(** A request to /admin without the header is refused; with it, or
    outside /admin, it passes. *)
Example RequireHeader_refuses :
  RequireHeader (Some (fun p => HasPrefix p "/admin")) "x-token" None 403
    okHandler (sampleContext "/admin/users" [])
  = Ret (None,
         {| ctxRequest := ctxRequest (sampleContext "/admin/users" []);
            ctxResponse :=
              {| rwHeader := ∅; rwStatus := Some 403%Z; rwBody := "Forbidden" |};
            ctxWrite := ctxWrite (sampleContext "/admin/users" []) |}).
Proof. reflexivity. Qed.

(** On a closed connection the refusal returns the error of the write,
    and the status is all the response gets. *)
Example RequireHeader_refuses_closed :
  RequireHeader (Some (fun p => HasPrefix p "/admin")) "x-token" None 403
    okHandler (closedContext "/admin/users" [])
  = Ret (Some "write: broken pipe",
         {| ctxRequest := ctxRequest (closedContext "/admin/users" []);
            ctxResponse :=
              {| rwHeader := ∅; rwStatus := Some 403%Z; rwBody := "" |};
            ctxWrite := ctxWrite (closedContext "/admin/users" []) |}).
Proof. reflexivity. Qed.

Example RequireHeader_passes :
  RequireHeader (Some (fun p => HasPrefix p "/admin")) "x-token" None 403
    okHandler (sampleContext "/admin/users" [("X-Token", ["t"])])
  = okHandler (sampleContext "/admin/users" [("X-Token", ["t"])]) ∧
  RequireHeader (Some (fun p => HasPrefix p "/admin")) "x-token" None 403
    okHandler (sampleContext "/public" [])
  = okHandler (sampleContext "/public" []).
Proof. split; reflexivity. Qed.

End HeaderGateFacts.

(** ** More on strings and 64-bit counters *)
Module MoreStringFacts.
Import GoStrings GoMore GoStringsFacts.

Lemma app_cons (c : ascii) (a b : string) : String c a ++ b = String c (a ++ b).
Proof. reflexivity. Qed.

Lemma app_nil (b : string) : "" ++ b = b.
Proof. reflexivity. Qed.

Ltac unfold_app := rewrite ?app_cons, ?app_nil.

Lemma append_assoc (a b c : string) : a ++ (b ++ c) = (a ++ b) ++ c.
Proof. induction a as [|x a IH]; unfold_app; [done|]. by rewrite IH. Qed.

Lemma append_empty (s : string) : s ++ "" = s.
Proof. induction s as [|c s IH]; unfold_app; [done|]. by rewrite IH. Qed.

Lemma Split_no_sep (s : string) (sep : ascii) :
  holds sep s = false → Split s sep = [s].
Proof.
  induction s as [|c s IH]; simpl; [done|].
  intros Hh. apply orb_false_iff in Hh as [Hc Hs]. rewrite Hc, (IH Hs). done.
Qed.

Lemma Split_app_sep (a b : string) (sep : ascii) :
  holds sep a = false →
  Split (a ++ String sep b) sep = a :: Split b sep.
Proof.
  induction a as [|c a IH]; unfold_app; simpl.
  - intros _. by rewrite Ascii.eqb_refl.
  - intros Hh. apply orb_false_iff in Hh as [Hc Ha]. by rewrite Hc, (IH Ha).
Qed.

Lemma holds_app (sep : ascii) (a b : string) :
  holds sep (a ++ b) = holds sep a || holds sep b.
Proof.
  induction a as [|c a IH]; unfold_app; simpl; [done|]. by rewrite IH, orb_assoc.
Qed.

Lemma Split_length (s : string) (sep : ascii) :
  length (Split s sep) = S (countByte sep s).
Proof.
  induction s as [|c s IH]; simpl; [done|].
  destruct (Ascii.eqb c sep); simpl; [by rewrite IH|].
  destruct (Split s sep); simpl in *; lia.
Qed.

Lemma Split_two (a b : string) :
  holds " " a = false → holds " " b = false →
  Split (a ++ " " ++ b) " " = [a; b].
Proof.
  intros Ha Hb. change (" " ++ b) with (String " " b).
  by rewrite Split_app_sep, Split_no_sep.
Qed.

(** The pieces of a list joined with a comma and a space, split on
    commas: all but the first start with the space. *)
Lemma Split_Join_comma_space (x : string) (xs : list string) (p : string) :
  holds "," p = false →
  Forall (fun piece => holds "," piece = false) (x :: xs) →
  Split (p ++ Join (x :: xs) ", ") "," = (p ++ x) :: map (fun y => " " ++ y) xs.
Proof.
  revert x p. induction xs as [|y xs IH]; intros x p Hp Hall.
  - change (Join [x] ", ") with x. apply Split_no_sep.
    rewrite holds_app, Hp. simpl. by apply Forall_inv in Hall.
  - inversion Hall as [|? ? Hx Hrest]; subst.
    change (Join (x :: y :: xs) ", ")
      with (x ++ String "," (" " ++ Join (y :: xs) ", ")).
    rewrite append_assoc, Split_app_sep by (by rewrite holds_app, Hp, Hx).
    by rewrite (IH y " " eq_refl Hrest).
Qed.

Lemma holds_trimLeft (sep : ascii) (s : string) :
  holds sep s = false → holds sep (trimLeft s) = false.
Proof.
  induction s as [|c s IH]; simpl; [done|].
  intros Hh. destruct (isSpace c); [|done].
  apply orb_false_iff in Hh as [_ Hs]. by apply IH.
Qed.

Lemma holds_trimRight (sep : ascii) (s : string) :
  holds sep s = false → holds sep (trimRight s) = false.
Proof.
  induction s as [|c s IH]; simpl; [done|].
  intros Hh. apply orb_false_iff in Hh as [Hc Hs]. specialize (IH Hs).
  destruct (trimRight s); [destruct (isSpace c)|]; simpl; try done.
  - by rewrite Hc.
  - simpl in IH. by rewrite Hc, IH.
Qed.

Lemma trimRight_idempotent (s : string) : trimRight (trimRight s) = trimRight s.
Proof.
  induction s as [|c s IH]; simpl; [done|].
  destruct (trimRight s) as [|d r] eqn:Hr.
  - destruct (isSpace c) eqn:Hc; simpl; [done|]. by rewrite Hc.
  - cbn [trimRight]. cbn [trimRight] in IH. rewrite IH. done.
Qed.

Lemma trimLeft_trimmed (s : string) :
  (∀ c r, s = String c r → isSpace c = false) → trimLeft s = s.
Proof.
  destruct s as [|c r]; simpl; [done|]. intros H. by rewrite (H c r eq_refl).
Qed.

Lemma TrimSpace_idempotent (s : string) : TrimSpace (TrimSpace s) = TrimSpace s.
Proof.
  unfold TrimSpace at 1.
  rewrite trimLeft_trimmed by apply (proj1 (TrimSpace_trimmed s)).
  unfold TrimSpace. apply trimRight_idempotent.
Qed.

Lemma TrimSpace_space (s : string) : TrimSpace (" " ++ s) = TrimSpace s.
Proof. reflexivity. Qed.

Lemma HasSuffix_app (p suffix : string) : HasSuffix (p ++ suffix) suffix = true.
Proof.
  induction p as [|c p IH]; unfold_app.
  - destruct suffix; cbn [HasSuffix]; by rewrite String.eqb_refl.
  - cbn [HasSuffix]. by rewrite IH, orb_true_r.
Qed.

Lemma HasSuffix_spec (s suffix : string) :
  HasSuffix s suffix = true ↔ ∃ p, s = p ++ suffix.
Proof.
  split; [|intros [p ->]; apply HasSuffix_app].
  induction s as [|c s IH]; cbn [HasSuffix].
  - rewrite orb_false_r. intros Heq%String.eqb_eq. by exists "".
  - intros [Heq%String.eqb_eq|Hs]%orb_true_iff; [by exists ""|].
    destruct (IH Hs) as [p ->]. by exists (String c p).
Qed.

Lemma toUpperByte_not_lower (c : ascii) : isLower (toUpperByte c) = false.
Proof. destruct c as [[] [] [] [] [] [] [] []]; reflexivity. Qed.

Lemma ToUpper_no_lower (s : string) : anyByte isLower (ToUpper s) = false.
Proof.
  unfold ToUpper. induction s as [|c s IH]; simpl; [done|].
  by rewrite toUpperByte_not_lower, IH.
Qed.

Lemma toLowerByte_space (c : ascii) :
  Ascii.eqb (toLowerByte c) " " = Ascii.eqb c " ".
Proof. destruct c as [[] [] [] [] [] [] [] []]; reflexivity. Qed.

Lemma holds_ToLower (s : string) : holds " " (ToLower s) = holds " " s.
Proof.
  unfold ToLower. induction s as [|c s IH]; simpl; [done|].
  by rewrite toLowerByte_space, IH.
Qed.

Lemma wrap64_add (x y : Z) : wrap64 (wrap64 x + y) = wrap64 (x + y).
Proof.
  unfold wrap64. f_equal.
  replace ((x + 2 ^ 63) mod 2 ^ 64 - 2 ^ 63 + y + 2 ^ 63)%Z
    with ((x + 2 ^ 63) mod 2 ^ 64 + y)%Z by lia.
  rewrite Zplus_mod_idemp_l. f_equal. lia.
Qed.

Lemma wrap64_inj (a b : Z) :
  wrap64 a = wrap64 b → (0 < b - a < 2 ^ 64)%Z → False.
Proof.
  unfold wrap64. intros Heq Hd.
  assert (Hm : ((a + 2 ^ 63) mod 2 ^ 64 = (b + 2 ^ 63) mod 2 ^ 64)%Z) by lia.
  pose proof (Z.div_mod (a + 2 ^ 63) (2 ^ 64) ltac:(lia)) as Ha.
  pose proof (Z.div_mod (b + 2 ^ 63) (2 ^ 64) ltac:(lia)) as Hb.
  rewrite Hm in Ha.
  assert (Hk : (b - a = 2 ^ 64 * ((b + 2 ^ 63) / 2 ^ 64 - (a + 2 ^ 63) / 2 ^ 64))%Z)
    by lia.
  nia.
Qed.

Lemma Itoa_inj (a b : Z) : Itoa a = Itoa b → a = b.
Proof.
  intros H. pose proof (CorsFacts.Itoa_decimal a) as Ha.
  rewrite H, CorsFacts.Itoa_decimal in Ha. by injection Ha.
Qed.

End MoreStringFacts.

(** ** More on CORS matching and negotiation *)
Module CorsMore.
Import GoStrings GoMore Http Cors CorsSpec CorsFacts CorsNames.
Import GoStringsFacts MoreStringFacts MoreSamples.CorsData.

(** *** Matching *)

Lemma RequestResource_cons (r : ResourceDefinition) (v : Specification)
    (ctx : Context) (origin : string) :
  RequestResource (r :: v) ctx origin =
    allowed ← OriginAllowed r origin;
    if allowed && PathMatches r (ctxPath ctx)
         && match CheckFn r with None => true | Some check => check ctx end
    then Ret (Some r) else RequestResource v ctx origin.
Proof.
  unfold RequestResource. simpl.
  destruct (OriginAllowed r origin) as [b|]; simpl; [|done].
  by destruct (b && PathMatches r (ctxPath ctx)),
       (match CheckFn r with None => true | Some c => c ctx end).
Qed.

Lemma PathResource_cons (r : ResourceDefinition) (v : Specification)
    (path : string) :
  PathResource (r :: v) path =
    if PathMatches r path then Some r else PathResource v path.
Proof.
  simpl. unfold PathMatches. destruct (IsPathPrefix r); [done|].
  by rewrite String.eqb_sym.
Qed.

Lemma rule_step (r : ResourceDefinition) (ctx : Context) (origin : string) :
  originConfigured r →
  ∃ b, OriginAllowed r origin = Ret b ∧
    (b && PathMatches r (ctxPath ctx)
       && match CheckFn r with None => true | Some check => check ctx end
     = true ↔ ruleMatches ctx origin r).
Proof.
  intros Hcfg. destruct (OriginAllowed_spec r origin Hcfg) as [b [Hb Hiff]].
  exists b. split; [done|]. unfold ruleMatches.
  rewrite !andb_true_iff, Hiff, PathMatches_spec, guard_spec. tauto.
Qed.

Lemma originConfigured_dec (r : ResourceDefinition) :
  originConfigured r ∨ (Origin r = "" ∧ OriginRegexp r = None).
Proof.
  unfold originConfigured.
  destruct (String.eqb_spec (Origin r) ""); [|by left; left].
  destruct (OriginRegexp r); [left; right; eauto | by right].
Qed.

Lemma sampleSpec_configured : Forall originConfigured sampleSpec.
Proof.
  constructor; [left; discriminate|].
  constructor; [right; eexists; reflexivity|].
  constructor; [left; discriminate|]. constructor.
Defined.

(** X1.  [PathResource] returns the first rule, in the order of the
    specification, whose path matches the given path (as a prefix for a
    prefix rule, exactly otherwise), and no rule when none matches;
    origins and guards play no part. *)
Theorem X1_PathResource_first_match (v : Specification) (path : string) :
  match PathResource v path with
  | Some r =>
      ∃ before after, v = (before ++ r :: after)%list ∧
        Forall (fun r' => ¬ pathMatches r' path) before ∧ pathMatches r path
  | None => Forall (fun r' => ¬ pathMatches r' path) v
  end.
Proof.
  induction v as [|r v IH]; [constructor|].
  rewrite PathResource_cons.
  pose proof (PathMatches_spec r path) as Hdec.
  destruct (PathMatches r path) eqn:Hm.
  - exists [], v. split; [done|]. split; [constructor|]. by apply Hdec.
  - assert (¬ pathMatches r path) by (rewrite <- Hdec; done).
    destruct (PathResource v path) as [r'|].
    + destruct IH as (before & after & -> & Hb & Hr).
      exists (r :: before), after. split; [done|]. split; [by constructor|done].
    + by constructor.
Qed.

(** X2.  When [RequestResource] finds a rule for an origin, [PathResource]
    finds a rule for the path of the same request, and that rule is the
    one found for the origin or one that stands before it. *)
Theorem X2_RequestResource_within_PathResource (v : Specification)
    (ctx : Context) (origin : string) (res : ResourceDefinition) :
  RequestResource v ctx origin = Ret (Some res) →
  ∃ before r after, v = (before ++ r :: after)%list ∧
    PathResource v (ctxPath ctx) = Some r ∧ (r = res ∨ In res after).
Proof.
  induction v as [|r v IH]; [done|].
  rewrite RequestResource_cons, PathResource_cons.
  destruct (OriginAllowed r origin) as [b|]; simpl; [|done].
  destruct (PathMatches r (ctxPath ctx)) eqn:Hp.
  - intros Hres. exists [], r, v. split; [done|]. split; [done|].
    destruct (b && true && _).
    + left. by injection Hres.
    + right. destruct (IH Hres) as (before & r' & after & -> & _ & [->|Hin]);
        apply in_or_app; right; [by left | by right].
  - rewrite andb_false_r. simpl. intros Hres.
    destruct (IH Hres) as (before & r' & after & -> & Hpath & Hin).
    exists (r :: before), r', after. by repeat split.
Qed.

Lemma X2_witness :
  RequestResource sampleSpec apiContext "https://example.org"
    = Ret (Some patternRule) ∧
  ∃ before r after, sampleSpec = (before ++ r :: after)%list ∧
    PathResource sampleSpec (ctxPath apiContext) = Some r ∧
    (r = patternRule ∨ In patternRule after).
Proof.
  assert (H : RequestResource sampleSpec apiContext "https://example.org"
              = Ret (Some patternRule)) by reflexivity.
  split; [exact H|].
  exact (X2_RequestResource_within_PathResource sampleSpec apiContext
           "https://example.org" patternRule H).
Defined.

(** X3.  [RequestResource] panics exactly when the scan reaches a rule
    that has neither an origin nor a pattern: some rule of the
    specification has an empty [Origin] and a nil [OriginRegexp], and
    every rule before it has one of the two and does not match. *)
Theorem X3_RequestResource_panics_iff (v : Specification) (ctx : Context)
    (origin : string) :
  RequestResource v ctx origin = Panic ↔
  ∃ before r after, v = (before ++ r :: after)%list ∧
    Origin r = "" ∧ OriginRegexp r = None ∧
    Forall (fun r' => originConfigured r' ∧ ¬ ruleMatches ctx origin r') before.
Proof.
  induction v as [|r v IH].
  - split; [done|]. intros (before & r & after & Hv & _). by destruct before.
  - rewrite RequestResource_cons.
    destruct (originConfigured_dec r) as [Hcfg|[Ho Hre]].
    + destruct (rule_step r ctx origin Hcfg) as [b [-> Hiff]]. simpl.
      destruct (b && PathMatches r (ctxPath ctx) && _) eqn:Hm.
      * split; [done|]. intros (before & r' & after & Hv & Ho & Hre & Hb).
        exfalso. destruct before as [|r0 before]; injection Hv as <- _.
        -- destruct Hcfg as [Hne|[re Hsome]]; congruence.
        -- apply Forall_inv in Hb. destruct Hb as [_ Hno]. apply Hno.
           by apply Hiff.
      * rewrite IH. split.
        -- intros (before & r' & after & -> & Ho & Hre & Hb).
           exists (r :: before), r', after. split; [done|]. split; [done|].
           split; [done|]. constructor; [|done]. split; [done|].
           rewrite <- Hiff. done.
        -- intros (before & r' & after & Hv & Ho & Hre & Hb).
           destruct before as [|r0 before]; injection Hv as <- ->.
           ++ destruct Hcfg as [Hne|[re Hsome]]; congruence.
           ++ exists before, r', after. split; [done|]. split; [done|].
              split; [done|]. by apply Forall_inv_tail in Hb.
    + unfold OriginAllowed. rewrite Ho, Hre. simpl. split; [|done].
      intros _. exists [], r, v. split; [done|]. split; [done|].
      split; [done|]. constructor.
Qed.

(** A rule without origin and pattern behind a rule that matches is
    never reached; before it, it stops every request with an origin. *)
Example brokenRule_position :
  RequestResource [authorizedRule; brokenRule] rootContext
    "http://authorized.com" = Ret (Some authorizedRule) ∧
  RequestResource [brokenRule; authorizedRule] rootContext
    "http://authorized.com" = Panic.
Proof. split; reflexivity. Qed.

(** *** The handler *)

Lemma RequestResource_returns (v : Specification) (ctx : Context)
    (origin : string) :
  Forall originConfigured v → ∃ m, RequestResource v ctx origin = Ret m.
Proof.
  induction 1 as [|r v Hr Hv IH]; [by exists None|].
  rewrite RequestResource_cons.
  destruct (rule_step r ctx origin Hr) as [b [-> _]]. simpl.
  destruct (b && _ && _); eauto.
Qed.

Lemma negotiate_shape (spec : Specification) (ctx : Context)
    (rw rw' : ResponseWriter) (req req' : Request) :
  negotiate spec ctx rw req = Ret (rw', req') →
  rwStatus rw' = rwStatus rw ∧ rwBody rw' = rwBody rw.
Proof.
  unfold negotiate. destruct (preflight spec ctx req (rwHeader rw))
    as [[[res originHeader] dest]|]; simpl; [|done].
  unfold handleRequest.
  destruct res as [r|]; [|destruct (PathResource spec (URLPath req))];
    by intros [= <- <-].
Qed.

Lemma negotiate_returns (spec : Specification) (ctx : Context)
    (rw : ResponseWriter) (req : Request) :
  Forall originConfigured spec →
  ∃ rw' req', negotiate spec ctx rw req = Ret (rw', req').
Proof.
  intros Hcfg.
  assert (Hn : ∃ p, negotiate spec ctx rw req = Ret p).
  { unfold negotiate, preflight.
    destruct (negb (requestOrigin (reqHeader req) =? "")); simpl; [|eauto].
    destruct (RequestResource_returns spec ctx (requestOrigin (reqHeader req)) Hcfg)
      as [m ->]. simpl.
    destruct m as [res|]; simpl; [|eauto].
    repeat match goal with
           | |- context [if ?b then _ else _] => destruct b; simpl
           end; eauto. }
  destruct Hn as [[rw' req'] Hn]. eauto.
Qed.

(** X4.  On a specification whose rules each have an origin or a
    pattern, the middleware always reaches the next handler, and hands
    it a response whose status and body it has not touched: it never
    answers a request itself and never fails. *)
Theorem X4_Middleware_hands_over (spec : Specification) (h : Handler)
    (ctx : Context) (rw : ResponseWriter) (req : Request) :
  Forall originConfigured spec →
  ∃ rw' req',
    negotiate spec ctx rw req = Ret (rw', req') ∧
    Middleware spec h ctx rw req = h ctx rw' req' ∧
    rwStatus rw' = rwStatus rw ∧ rwBody rw' = rwBody rw.
Proof.
  intros Hcfg.
  destruct (negotiate_returns spec ctx rw req Hcfg) as (rw' & req' & Hn).
  exists rw', req'. split; [done|]. split; [by apply Middleware_negotiate|].
  by apply negotiate_shape in Hn.
Qed.

Lemma X4_witness :
  Forall originConfigured sampleSpec ∧
  ∃ rw' req',
    negotiate sampleSpec rootContext freshWriter fooRequest = Ret (rw', req') ∧
    Middleware sampleSpec preflightHandler rootContext freshWriter fooRequest
      = preflightHandler rootContext rw' req' ∧
    rwStatus rw' = rwStatus freshWriter ∧ rwBody rw' = rwBody freshWriter.
Proof.
  split; [exact sampleSpec_configured|].
  exact (X4_Middleware_hands_over sampleSpec preflightHandler rootContext
           freshWriter fooRequest sampleSpec_configured).
Defined.

Lemma Header_Set_other (h : Header) (key value k : string) :
  CanonicalMIMEHeaderKey key = key → k ≠ key →
  Header_Set h key value !! k = h !! k.
Proof. intros Hc Hk. rewrite Header_Set_lookup by done. by case_decide. Qed.

Lemma FillHeaders_other (res : ResourceDefinition) (origin : string)
    (dest : Header) (k : string) :
  ¬ In k corsHeaders → FillHeaders res origin dest !! k = dest !! k.
Proof.
  intros Hk. rewrite FillHeaders_lookup.
  repeat case_decide; try done; subst; exfalso; apply Hk; simpl; tauto.
Qed.

(** X5.  Of the response, the middleware writes nothing but the six
    Access-Control headers: every other response header, the status and
    the body reach the next handler as they were. *)
Theorem X5_negotiate_response_frame (spec : Specification) (ctx : Context)
    (rw rw' : ResponseWriter) (req req' : Request) :
  negotiate spec ctx rw req = Ret (rw', req') →
  rwStatus rw' = rwStatus rw ∧ rwBody rw' = rwBody rw ∧
  ∀ k, ¬ In k corsHeaders → rwHeader rw' !! k = rwHeader rw !! k.
Proof.
  intros Hn. pose proof (negotiate_shape _ _ _ _ _ _ Hn) as [Hs Hb].
  split; [done|]. split; [done|]. intros k Hk. revert Hn.
  unfold negotiate, preflight.
  destruct (negb (requestOrigin (reqHeader req) =? "")); simpl.
  - destruct (RequestResource spec ctx (requestOrigin (reqHeader req)))
      as [[res|]|]; simpl; [| |done].
    + repeat match goal with
             | |- context [if ?b then _ else _] => destruct b; simpl
             end;
        intros [= <- <-]; simpl; rewrite FillHeaders_other by done; try done;
        (apply Header_Set_other; [done|]; intros ->; apply Hk; simpl; tauto).
    + unfold handleRequest.
      destruct (PathResource spec (URLPath req)); by intros [= <- <-].
  - unfold handleRequest.
    destruct (PathResource spec (URLPath req)); by intros [= <- <-].
Qed.

Lemma X5_witness :
  negotiate [authorizedRule] rootContext freshWriter simpleRequest
    = Ret (simpleAnswer, simpleRequestAfter) ∧
  rwStatus simpleAnswer = rwStatus freshWriter ∧
  rwBody simpleAnswer = rwBody freshWriter ∧
  ∀ k, ¬ In k corsHeaders →
    rwHeader simpleAnswer !! k = rwHeader freshWriter !! k.
Proof.
  assert (H : negotiate [authorizedRule] rootContext freshWriter simpleRequest
              = Ret (simpleAnswer, simpleRequestAfter)) by reflexivity.
  split; [exact H|].
  exact (X5_negotiate_response_frame [authorizedRule] rootContext freshWriter
           simpleAnswer simpleRequest simpleRequestAfter H).
Defined.

(** X6.  Of the request, the middleware changes nothing but the Vary
    entry of the header map, and to that entry it only appends: method,
    path, query, body and every other header reach the next handler as
    they were received, and the Vary values received are still there,
    in front. *)
Theorem X6_negotiate_request_frame (spec : Specification) (ctx : Context)
    (rw rw' : ResponseWriter) (req req' : Request) :
  negotiate spec ctx rw req = Ret (rw', req') →
  Method req' = Method req ∧ URLPath req' = URLPath req ∧
  URLQuery req' = URLQuery req ∧ Body req' = Body req ∧
  (∀ k, k ≠ "Vary" → reqHeader req' !! k = reqHeader req !! k) ∧
  ∃ added, values (reqHeader req') "Vary"
             = (values (reqHeader req) "Vary" ++ added)%list.
Proof.
  intros Hn.
  destruct (request_frame _ _ _ _ _ _ Hn) as (Hm & Hp & Hq & Hb & Hh).
  repeat (split; [done|]).
  revert Hn. unfold negotiate.
  destruct (preflight spec ctx req (rwHeader rw))
    as [[[res originHeader] dest]|]; simpl; [|done].
  unfold handleRequest.
  assert (Hvary : ∀ r, ∃ added,
            values (applyVary r (reqHeader req)) "Vary"
              = (values (reqHeader req) "Vary" ++ added)%list).
  { intros r. unfold applyVary, values at 1. rewrite lookup_insert_eq. simpl.
    destruct (0 <? length (Vary r))%nat; eauto. }
  destruct res as [r|]; [|destruct (PathResource spec (URLPath req)) as [r|]];
    intros [= <- <-]; simpl; try apply Hvary.
  exists []. by rewrite app_nil_r.
Qed.

Lemma X6_witness :
  negotiate [authorizedRule] rootContext freshWriter simpleRequest
    = Ret (simpleAnswer, simpleRequestAfter) ∧
  Method simpleRequestAfter = Method simpleRequest ∧
  URLPath simpleRequestAfter = URLPath simpleRequest ∧
  URLQuery simpleRequestAfter = URLQuery simpleRequest ∧
  Body simpleRequestAfter = Body simpleRequest ∧
  (∀ k, k ≠ "Vary" →
     reqHeader simpleRequestAfter !! k = reqHeader simpleRequest !! k) ∧
  ∃ added, values (reqHeader simpleRequestAfter) "Vary"
             = (values (reqHeader simpleRequest) "Vary" ++ added)%list.
Proof.
  assert (H : negotiate [authorizedRule] rootContext freshWriter simpleRequest
              = Ret (simpleAnswer, simpleRequestAfter)) by reflexivity.
  split; [exact H|].
  exact (X6_negotiate_request_frame [authorizedRule] rootContext freshWriter
           simpleAnswer simpleRequest simpleRequestAfter H).
Defined.

(** X7.  [FillHeaders] is idempotent: filling a header map that was
    already filled for the same rule and origin changes nothing. *)
Theorem X7_FillHeaders_idempotent (res : ResourceDefinition)
    (origin : string) (dest : Header) :
  FillHeaders res origin (FillHeaders res origin dest)
    = FillHeaders res origin dest.
Proof.
  apply map_eq. intros k. rewrite !FillHeaders_lookup.
  repeat case_decide; try done;
    by destruct (Credentials res), (0 <? MaxAge res)%Z,
         (0 <? length (Expose res))%nat.
Qed.

(** X8.  [FillHeaders] removes no header: an entry of the destination
    map is still there afterwards, so an Expose-Headers, Max-Age or
    Allow-Credentials value written earlier outlives a rule that does
    not set it. *)
Theorem X8_FillHeaders_keeps_entries (res : ResourceDefinition)
    (origin : string) (dest : Header) (k : string) :
  is_Some (dest !! k) → is_Some (FillHeaders res origin dest !! k).
Proof.
  intros Hk. rewrite FillHeaders_lookup.
  repeat case_decide; try done;
    by destruct (Credentials res), (0 <? MaxAge res)%Z,
         (0 <? length (Expose res))%nat.
Qed.

Lemma X8_witness :
  is_Some (({[acMaxAge := ["600"]]} : Header) !! acMaxAge) ∧
  is_Some (FillHeaders authorizedRule "http://authorized.com"
             {[acMaxAge := ["600"]]} !! acMaxAge) ∧
  FillHeaders authorizedRule "http://authorized.com"
    {[acMaxAge := ["600"]]} !! acMaxAge = Some ["600"].
Proof.
  assert (H : is_Some (({[acMaxAge := ["600"]]} : Header) !! acMaxAge))
    by (eexists; reflexivity).
  split; [exact H|]. split; [|reflexivity].
  exact (X8_FillHeaders_keeps_entries authorizedRule "http://authorized.com"
           {[acMaxAge := ["600"]]} acMaxAge H).
Defined.

(** X9.  A request whose origin no rule matches gets no CORS header,
    even when a rule covers its path: the next handler receives the
    response writer as the middleware received it. *)
Theorem X9_unmatched_origin_no_cors_headers (spec : Specification)
    (h : Handler) (ctx : Context) (rw : ResponseWriter) (req : Request) :
  requestOrigin (reqHeader req) ≠ "" →
  RequestResource spec ctx (requestOrigin (reqHeader req)) = Ret None →
  ∃ req', negotiate spec ctx rw req = Ret (rw, req') ∧
          Middleware spec h ctx rw req = h ctx rw req'.
Proof.
  intros Ho Hres.
  assert (Hn : ∃ req', negotiate spec ctx rw req = Ret (rw, req')).
  { unfold negotiate, preflight. apply String.eqb_neq in Ho. rewrite Ho, Hres.
    simpl. unfold handleRequest.
    destruct (PathResource spec (URLPath req)); rewrite withRwHeader_id; eauto. }
  destruct Hn as [req' Hn]. exists req'. split; [done|].
  by apply Middleware_negotiate.
Qed.

Lemma X9_witness :
  requestOrigin (reqHeader strangerRequest) ≠ "" ∧
  RequestResource [authorizedRule] rootContext
    (requestOrigin (reqHeader strangerRequest)) = Ret None ∧
  PathResource [authorizedRule] (URLPath strangerRequest) = Some authorizedRule ∧
  ∃ req', negotiate [authorizedRule] rootContext freshWriter strangerRequest
            = Ret (freshWriter, req') ∧
          Middleware [authorizedRule] preflightHandler rootContext freshWriter
            strangerRequest = preflightHandler rootContext freshWriter req'.
Proof.
  assert (H1 : requestOrigin (reqHeader strangerRequest) ≠ "") by discriminate.
  assert (H2 : RequestResource [authorizedRule] rootContext
                 (requestOrigin (reqHeader strangerRequest)) = Ret None)
    by reflexivity.
  split; [exact H1|]. split; [exact H2|]. split; [reflexivity|].
  exact (X9_unmatched_origin_no_cors_headers [authorizedRule] preflightHandler
           rootContext freshWriter strangerRequest H1 H2).
Defined.

(** *** Layers and preflights *)

(** What [preflight] reads of the request. *)
Lemma preflight_ext (spec : Specification) (ctx : Context)
    (req1 req2 : Request) (dest : Header) :
  Method req1 = Method req2 →
  (∀ k, k ≠ "Vary" → reqHeader req1 !! k = reqHeader req2 !! k) →
  preflight spec ctx req1 dest = preflight spec ctx req2 dest.
Proof.
  intros Hm Hh.
  assert (Hget : ∀ key, CanonicalMIMEHeaderKey key ≠ "Vary" →
            Header_Get (reqHeader req1) key = Header_Get (reqHeader req2) key).
  { intros key Hkey. unfold Header_Get, values. by rewrite Hh. }
  unfold preflight, requestOrigin.
  rewrite !(Hget "Origin"), !(Hget "X-Origin"), (Hget acRequestMethod), Hm
    by discriminate.
  unfold values. by rewrite (Hh acRequestHeaders) by discriminate.
Qed.

(** What [preflight] does to the response headers, whatever they are. *)
Lemma preflight_dest (spec : Specification) (ctx : Context) (req : Request)
    (dest dest' : Header) (res : option ResourceDefinition) (oh : string) :
  preflight spec ctx req dest = Ret (res, oh, dest') →
  ∃ j : option string,
    dest' = from_option (Header_Set dest acAllowHeaders) dest j ∧
    (res = None → j = None) ∧
    ∀ dest2, preflight spec ctx req dest2
               = Ret (res, oh, from_option (Header_Set dest2 acAllowHeaders) dest2 j).
Proof.
  unfold preflight.
  destruct (negb (requestOrigin (reqHeader req) =? "")); simpl.
  - destruct (RequestResource spec ctx (requestOrigin (reqHeader req)))
      as [[r|]|]; simpl; [| |done].
    + repeat match goal with
             | |- context [if ?b then _ else _] => destruct b; simpl
             end;
        intros [= <- <- <-];
        first [ by exists None | by eexists (Some _) ].
    + intros [= <- <- <-]. by exists None.
  - intros [= <- <- <-]. by exists None.
Qed.

Lemma fill_step_twice (r : ResourceDefinition) (oh : string)
    (j : option string) (dest : Header) :
  let step d := from_option (Header_Set d acAllowHeaders) d j in
  FillHeaders r oh (step (FillHeaders r oh (step dest)))
    = FillHeaders r oh (step dest).
Proof.
  simpl. apply map_eq. intros k. destruct j as [joined|]; simpl;
  repeat (rewrite FillHeaders_lookup
          || rewrite (Header_Set_lookup _ _ _ _ canonical_acAllowHeaders));
  repeat case_decide; subst; try done;
    by destruct (Credentials r), (0 <? MaxAge r)%Z, (0 <? length (Expose r))%nat.
Qed.

(** X10.  Mounting the middleware twice gives the response of mounting
    it once: run again on what it handed on, it hands on the same
    response writer. *)
Theorem X10_negotiate_twice (spec : Specification) (ctx : Context)
    (rw rw' : ResponseWriter) (req req' : Request) :
  negotiate spec ctx rw req = Ret (rw', req') →
  ∃ req'', negotiate spec ctx rw' req' = Ret (rw', req'').
Proof.
  intros Hn.
  destruct (request_frame _ _ _ _ _ _ Hn) as (Hm & Hp & _ & _ & Hh).
  revert Hn. unfold negotiate.
  rewrite (preflight_ext spec ctx req' req (rwHeader rw') Hm Hh).
  destruct (preflight spec ctx req (rwHeader rw)) as [[[res oh] dest]|] eqn:Hpre;
    simpl; [|done].
  destruct (preflight_dest _ _ _ _ _ _ _ Hpre) as (j & -> & Hnone & Hany).
  rewrite Hany. simpl. unfold handleRequest. rewrite Hp.
  destruct res as [r|].
  - intros [= <- <-]. simpl. rewrite (fill_step_twice r oh j).
    eexists. reflexivity.
  - rewrite (Hnone eq_refl). simpl.
    destruct (PathResource spec (URLPath req)); intros [= <- <-]; simpl;
      eexists; reflexivity.
Qed.

Lemma X10_witness :
  negotiate [authorizedRule] rootContext freshWriter simpleRequest
    = Ret (simpleAnswer, simpleRequestAfter) ∧
  ∃ req'', negotiate [authorizedRule] rootContext simpleAnswer simpleRequestAfter
             = Ret (simpleAnswer, req'').
Proof.
  assert (H : negotiate [authorizedRule] rootContext freshWriter simpleRequest
              = Ret (simpleAnswer, simpleRequestAfter)) by reflexivity.
  split; [exact H|].
  exact (X10_negotiate_twice [authorizedRule] rootContext freshWriter
           simpleAnswer simpleRequest simpleRequestAfter H).
Defined.

Lemma methodFound_lower (x : string) (methods : list string) :
  Forall (fun m => anyByte isLower m = true) methods →
  methodFound (ToUpper x) methods = false.
Proof.
  induction 1 as [|m methods Hm _ IH]; simpl; [done|].
  rewrite IH, orb_false_r. apply String.eqb_neq. intros ->.
  by rewrite ToUpper_no_lower in Hm.
Qed.

(** X11.  The requested method is upper-cased before it is compared and
    the rule's methods are not: a rule whose methods all hold a
    lower-case letter accepts no preflight, whatever method is asked
    for; its requests are answered as simple requests. *)
Theorem X11_lower_case_methods_never_accepted (spec : Specification)
    (ctx : Context) (rw : ResponseWriter) (req : Request)
    (res : ResourceDefinition) :
  requestOrigin (reqHeader req) ≠ "" →
  RequestResource spec ctx (requestOrigin (reqHeader req)) = Ret (Some res) →
  Forall (fun m => anyByte isLower m = true) (Methods res) →
  ∃ req',
    negotiate spec ctx rw req =
      Ret (withRwHeader rw
             (FillHeaders res (requestOrigin (reqHeader req)) (rwHeader rw)),
           req').
Proof.
  intros Ho Hres Hlow.
  rewrite (negotiate_matched spec ctx rw req res Ho Hres).
  assert (Hacc : preflightAccepted res req = false).
  { unfold preflightAccepted, requestedMethod.
    rewrite (methodFound_lower _ _ Hlow). by rewrite andb_false_r. }
  rewrite Hacc. simpl. eauto.
Qed.

Lemma X11_witness :
  requestOrigin (reqHeader bareRequest) ≠ "" ∧
  RequestResource [lowerCaseRule] rootContext
    (requestOrigin (reqHeader bareRequest)) = Ret (Some lowerCaseRule) ∧
  Forall (fun m => anyByte isLower m = true) (Methods lowerCaseRule) ∧
  ∃ req',
    negotiate [lowerCaseRule] rootContext freshWriter bareRequest =
      Ret (withRwHeader freshWriter
             (FillHeaders lowerCaseRule (requestOrigin (reqHeader bareRequest))
                (rwHeader freshWriter)),
           req').
Proof.
  assert (H1 : requestOrigin (reqHeader bareRequest) ≠ "") by discriminate.
  assert (H2 : RequestResource [lowerCaseRule] rootContext
                 (requestOrigin (reqHeader bareRequest))
               = Ret (Some lowerCaseRule)) by reflexivity.
  assert (H3 : Forall (fun m => anyByte isLower m = true) (Methods lowerCaseRule))
    by (constructor; [reflexivity | constructor]).
  split; [exact H1|]. split; [exact H2|]. split; [exact H3|].
  exact (X11_lower_case_methods_never_accepted [lowerCaseRule] rootContext
           freshWriter bareRequest lowerCaseRule H1 H2 H3).
Defined.

(** X12.  A preflight that names no header, and whose requested method
    is an ASCII value that the rule allows after upper-casing, is
    accepted whatever headers the rule allows, and is answered with an
    Access-Control-Allow-Headers header whose value is empty. *)
Theorem X12_preflight_without_requested_headers (spec : Specification)
    (ctx : Context) (rw : ResponseWriter) (req : Request)
    (res : ResourceDefinition) :
  requestOrigin (reqHeader req) ≠ "" →
  RequestResource spec ctx (requestOrigin (reqHeader req)) = Ret (Some res) →
  Method req = "OPTIONS" →
  isASCII (Header_Get (reqHeader req) acRequestMethod) = true →
  requestedMethod req ≠ "" →
  In (requestedMethod req) (Methods res) →
  reqHeader req !! acRequestHeaders = None →
  ∃ rw' req',
    negotiate spec ctx rw req = Ret (rw', req') ∧
    rwHeader rw' !! acAllowHeaders = Some [""].
Proof.
  intros Ho Hres Hm _ Hac Hin Hnone.
  pose proof (negotiate_matched spec ctx rw req res Ho Hres) as Hn.
  apply methodFound_In in Hin. apply String.eqb_neq in Hac.
  assert (Hhs : requestedHeaders req = []).
  { unfold requestedHeaders, values. by rewrite Hnone. }
  assert (Hacc : preflightAccepted res req = true).
  { unfold preflightAccepted. by rewrite Hm, Hac, Hin, Hhs. }
  rewrite Hacc, Hhs in Hn. eexists _, _. split; [exact Hn|].
  simpl. rewrite FillHeaders_lookup. repeat case_decide; try done.
  rewrite (Header_Set_lookup _ _ _ _ canonical_acAllowHeaders). by case_decide.
Qed.

Lemma X12_witness :
  requestOrigin (reqHeader bareRequest) ≠ "" ∧
  RequestResource [authorizedRule] rootContext
    (requestOrigin (reqHeader bareRequest)) = Ret (Some authorizedRule) ∧
  Method bareRequest = "OPTIONS" ∧
  isASCII (Header_Get (reqHeader bareRequest) acRequestMethod) = true ∧
  requestedMethod bareRequest ≠ "" ∧
  In (requestedMethod bareRequest) (Methods authorizedRule) ∧
  reqHeader bareRequest !! acRequestHeaders = None ∧
  ∃ rw' req',
    negotiate [authorizedRule] rootContext freshWriter bareRequest
      = Ret (rw', req') ∧
    rwHeader rw' !! acAllowHeaders = Some [""].
Proof.
  assert (H1 : requestOrigin (reqHeader bareRequest) ≠ "") by discriminate.
  assert (H2 : RequestResource [authorizedRule] rootContext
                 (requestOrigin (reqHeader bareRequest))
               = Ret (Some authorizedRule)) by reflexivity.
  assert (H3 : Method bareRequest = "OPTIONS") by reflexivity.
  assert (Ha : isASCII (Header_Get (reqHeader bareRequest) acRequestMethod)
               = true) by reflexivity.
  assert (H4 : requestedMethod bareRequest ≠ "") by discriminate.
  assert (H5 : In (requestedMethod bareRequest) (Methods authorizedRule))
    by (left; reflexivity).
  assert (H6 : reqHeader bareRequest !! acRequestHeaders = None) by reflexivity.
  repeat (split; [assumption|]).
  exact (X12_preflight_without_requested_headers [authorizedRule] rootContext
           freshWriter bareRequest authorizedRule H1 H2 H3 Ha H4 H5 H6).
Defined.

Lemma splat_entries (hs : list string) :
  Forall (fun e => holds "," e = false ∧ TrimSpace e = e) (splat hs).
Proof.
  unfold splat. induction hs as [|h hs IH]; simpl; [constructor|].
  apply Forall_app. split; [|done].
  apply Forall_map. eapply Forall_impl; [apply (Split_pieces h ",")|].
  intros piece Hp. simpl. split.
  - unfold TrimSpace. by apply holds_trimRight, holds_trimLeft.
  - apply TrimSpace_idempotent.
Qed.

(** X13.  The value written to Access-Control-Allow-Headers reads back
    as the list it was made of: splitting and trimming the joined list
    of requested headers gives the requested headers again, when there
    is at least one. *)
Theorem X13_allow_headers_echo (hs : list string) :
  splat hs ≠ [] →
  splat [Join (splat hs) ", "] = splat hs.
Proof.
  intros Hne. pose proof (splat_entries hs) as Hall.
  destruct (splat hs) as [|x xs]; [done|]. clear Hne.
  change (splat [Join (x :: xs) ", "])
    with (map TrimSpace (Split ("" ++ Join (x :: xs) ", ") ",") ++ [])%list.
  rewrite app_nil_r.
  rewrite (Split_Join_comma_space x xs "" eq_refl)
    by (eapply Forall_impl; [exact Hall|]; by intros e [He _]).
  simpl. unfold_app. inversion Hall as [|? ? [_ Hx] Hxs]; subst.
  rewrite Hx. f_equal.
  rewrite map_map. clear Hall Hx.
  induction Hxs as [|y ys [_ Hy] _ IH]; simpl; [done|].
  by rewrite TrimSpace_space, Hy, IH.
Qed.

Lemma X13_witness :
  splat ["foo , X-Bar"; "baz"] ≠ [] ∧
  splat [Join (splat ["foo , X-Bar"; "baz"]) ", "]
    = splat ["foo , X-Bar"; "baz"] ∧
  Join (splat ["foo , X-Bar"; "baz"]) ", " = "foo, X-Bar, baz".
Proof.
  assert (H : splat ["foo , X-Bar"; "baz"] ≠ []) by discriminate.
  split; [exact H|]. split; [|reflexivity].
  exact (X13_allow_headers_echo ["foo , X-Bar"; "baz"] H).
Defined.

End CorsMore.

(** ** The check of the requested headers *)
Module CorsHeaderCheck.
Import GoStrings GoMore Http Cors CorsSpec CorsFacts.
Import GoStringsFacts MoreStringFacts.

Lemma trimLeft_split (s : string) :
  ∃ l, s = l ++ trimLeft s ∧ allBytes isSpace l = true.
Proof.
  induction s as [|c s IH]; [by exists ""|].
  simpl. destruct (isSpace c) eqn:Hc.
  - destruct IH as (l & Hs & Hl). exists (String c l). split.
    + rewrite app_cons. by f_equal.
    + simpl. by rewrite Hc.
  - by exists "".
Qed.

Lemma trimRight_split (s : string) :
  ∃ r, s = trimRight s ++ r ∧ allBytes isSpace r = true.
Proof.
  induction s as [|c s IH]; [by exists ""|].
  destruct IH as (r & Hs & Hr). simpl.
  destruct (trimRight s) as [|d t] eqn:Ht.
  - rewrite app_nil in Hs. subst r. destruct (isSpace c) eqn:Hc.
    + exists (String c s). split; [by rewrite app_nil|].
      simpl. by rewrite Hc.
    + exists s. split; [by rewrite app_cons, app_nil | done].
  - exists r. split; [|done]. rewrite app_cons. by f_equal.
Qed.

Lemma TrimSpace_trims (piece : string) : trims piece (TrimSpace piece).
Proof.
  split; [|apply TrimSpace_trimmed].
  destruct (trimLeft_split piece) as (l & Hl & Hlsp).
  destruct (trimRight_split (trimLeft piece)) as (r & Hr & Hrsp).
  exists l, r. split; [|done]. unfold TrimSpace.
  rewrite <- Hr. exact Hl.
Qed.

Lemma splat_pieces (hs : list string) :
  splat hs = map TrimSpace (concat (map (fun v => Split v ",") hs)).
Proof.
  unfold splat. induction hs as [|h hs IH]; simpl; [done|].
  by rewrite IH, map_app.
Qed.

Lemma splat_spec (hs : list string) :
  ∃ pieces : list (list string),
    Forall2 splitsOnCommas hs pieces ∧
    Forall2 trims (concat pieces) (splat hs).
Proof.
  exists (map (fun v => Split v ",") hs). split.
  - induction hs as [|h hs IH]; simpl; constructor; [|done].
    split; [apply (Join_Split h ",") | apply Split_pieces].
  - rewrite splat_pieces.
    induction (concat (map (fun v => Split v ",") hs)) as [|x xs IH];
      simpl; constructor; [apply TrimSpace_trims | done].
Qed.

(** C1, as amended.  On a preflight whose requested method the matched
    rule allows, with ASCII values in the two request headers, the
    values of Access-Control-Request-Headers are split on commas and
    each entry is trimmed; an entry is allowed when it is equal, byte
    for byte, to one of the rule's allowed headers or when these
    contain ["*"].  When every entry is allowed the preflight is
    accepted and Access-Control-Allow-Headers is the entries joined by
    a comma and a space.  When the first entry is not allowed the
    preflight is abandoned as for a method that is not allowed:
    Access-Control-Allow-Headers is not written and the rule's headers
    are filled with the request's origin. *)
Theorem C1_requested_headers_check (spec : Specification) (ctx : Context)
    (rw : ResponseWriter) (req : Request) (res : ResourceDefinition) :
  requestOrigin (reqHeader req) ≠ "" →
  RequestResource spec ctx (requestOrigin (reqHeader req)) = Ret (Some res) →
  Method req = "OPTIONS" →
  isASCII (Header_Get (reqHeader req) acRequestMethod) = true →
  Forall (fun v => isASCII v = true)
    (values (reqHeader req) acRequestHeaders) →
  requestedMethod req ≠ "" →
  In (requestedMethod req) (Methods res) →
  (∃ pieces : list (list string),
     Forall2 splitsOnCommas (values (reqHeader req) acRequestHeaders) pieces ∧
     Forall2 trims (concat pieces) (requestedHeaders req)) ∧
  (Forall (fun h => In "*" (Headers res) ∨ In h (Headers res))
     (requestedHeaders req) →
   ∃ rw' req',
     negotiate spec ctx rw req = Ret (rw', req') ∧
     rwHeader rw' !! acAllowHeaders
       = Some [Join (requestedHeaders req) ", "]) ∧
  (∀ h rest, requestedHeaders req = h :: rest →
   ¬ In "*" (Headers res) → ¬ In h (Headers res) →
   ∃ rw' req',
     negotiate spec ctx rw req = Ret (rw', req') ∧
     rwHeader rw' =
       FillHeaders res (requestOrigin (reqHeader req)) (rwHeader rw) ∧
     rwHeader rw' !! acAllowHeaders = rwHeader rw !! acAllowHeaders).
Proof.
  intros Horigin Hres Hmethod _ _ Hac Hin.
  pose proof (negotiate_matched spec ctx rw req res Horigin Hres) as Hn.
  apply methodFound_In in Hin. apply String.eqb_neq in Hac.
  split; [apply splat_spec|]. split.
  - intros Hall.
    assert (Hacc : preflightAccepted res req = true).
    { unfold preflightAccepted. rewrite Hmethod, Hac, Hin. simpl.
      destruct (requestedHeaders req) as [|h rest] eqn:Hhs; [done|].
      simpl. by apply headersOk_all. }
    rewrite Hacc in Hn. eexists _, _. split; [exact Hn|].
    simpl. rewrite FillHeaders_lookup. repeat case_decide; try done.
    rewrite (Header_Set_lookup _ _ _ _ canonical_acAllowHeaders).
    by case_decide.
  - intros h rest Hhs Hstar Hnot.
    assert (Hacc : preflightAccepted res req = false).
    { unfold preflightAccepted. rewrite Hmethod, Hac, Hin, Hhs. simpl.
      by apply headersOk_first_refused. }
    rewrite Hacc in Hn. simpl in Hn.
    eexists _, _. split; [exact Hn|]. split; [done|].
    simpl. rewrite FillHeaders_lookup. by repeat case_decide.
Qed.

Lemma C1_witness :
  requestOrigin (reqHeader fooRequest) ≠ "" ∧
  RequestResource [authorizedRule] rootContext
    (requestOrigin (reqHeader fooRequest)) = Ret (Some authorizedRule) ∧
  Method fooRequest = "OPTIONS" ∧
  isASCII (Header_Get (reqHeader fooRequest) acRequestMethod) = true ∧
  Forall (fun v => isASCII v = true)
    (values (reqHeader fooRequest) acRequestHeaders) ∧
  requestedMethod fooRequest ≠ "" ∧
  In (requestedMethod fooRequest) (Methods authorizedRule) ∧
  ∃ rw' req',
    negotiate [authorizedRule] rootContext freshWriter fooRequest
      = Ret (rw', req') ∧
    rwHeader rw' !! acAllowHeaders = Some ["foo"].
Proof.
  assert (H1 : requestOrigin (reqHeader fooRequest) ≠ "") by discriminate.
  assert (H2 : RequestResource [authorizedRule] rootContext
                 (requestOrigin (reqHeader fooRequest))
               = Ret (Some authorizedRule)) by reflexivity.
  assert (H3 : Method fooRequest = "OPTIONS") by reflexivity.
  assert (Ha : isASCII (Header_Get (reqHeader fooRequest) acRequestMethod)
               = true) by reflexivity.
  assert (Hb : Forall (fun v => isASCII v = true)
                 (values (reqHeader fooRequest) acRequestHeaders))
    by (constructor; [reflexivity | constructor]).
  assert (H4 : requestedMethod fooRequest ≠ "") by discriminate.
  assert (H5 : In (requestedMethod fooRequest) (Methods authorizedRule))
    by (left; reflexivity).
  repeat (split; [assumption|]).
  destruct (C1_requested_headers_check [authorizedRule] rootContext
              freshWriter fooRequest authorizedRule H1 H2 H3 Ha Hb H4 H5)
    as (_ & Haccept & _).
  apply Haccept. constructor; [right; left; reflexivity | constructor].
Defined.

(** The entries of a value with spaces and an empty piece. *)
Example requested_headers_sample :
  requestedHeaders
    (request "OPTIONS" "/"
       [(acRequestHeaders, ["X-Token, Accept ,,foo"; " bar"])])
  = ["X-Token"; "Accept"; ""; "foo"; "bar"].
Proof. reflexivity. Qed.

End CorsHeaderCheck.

(** ** Mounting the preflight controller *)
Module CorsMountFacts.
Import GoStrings GoMore Http Cors CorsSpec CorsFacts CorsMount.
Import MoreStringFacts MoreSamples.CorsData.

(** X14.  A rule for an exact path is mounted on that path.  A prefix
    rule is mounted on its path followed by one slash and the wildcard
    [*cors]: the slash is supplied when the path does not end with one,
    and not doubled when it does. *)
Theorem X14_mountPath_shape (res : ResourceDefinition) :
  (IsPathPrefix res = false → mountPath res = Path res) ∧
  (IsPathPrefix res = true →
   ∃ base, mountPath res = base ++ "/*cors" ∧
     (Path res = base ++ "/" ∨
      (Path res = base ∧ HasSuffix base "/" = false))).
Proof.
  unfold mountPath. split; intros ->; [done|].
  destruct (HasSuffix (Path res) "/") eqn:Hs.
  - apply HasSuffix_spec in Hs as [base Hbase]. exists base. rewrite Hbase.
    split; [|by left]. by rewrite <- append_assoc.
  - exists (Path res). split; [done|]. by right.
Qed.

Example mountPath_samples :
  mountPath patternRule = "/api/*cors" ∧
  mountPath (rule "*" "/api/" [] [] false) = "/api/" ∧
  mountPath {| Origin := "*"; OriginRegexp := None; Path := "/api/";
               IsPathPrefix := true; Headers := []; Methods := [];
               Expose := []; MaxAge := 0; Credentials := false; Vary := [];
               CheckFn := None |} = "/api/*cors".
Proof. repeat split; reflexivity. Qed.

(** The handlers after the loop. *)
Lemma mountLoop_lookup (spec rules : Specification) (mux : Mux)
    (method path : string) :
  Lookup (mountLoop spec rules mux) method path =
    match Lookup mux method path with
    | Some h => Some h
    | None =>
        if bool_decide (method = "OPTIONS" ∧ path ∈ map mountPath rules)
        then Some (Middleware spec preflightHandler) else None
    end.
Proof.
  revert mux. induction rules as [|res rules IH]; intros mux; simpl.
  - destruct (Lookup mux method path); [done|].
    rewrite bool_decide_eq_false_2; [done|].
    intros [_ Hin]. by apply elem_of_nil in Hin.
  - rewrite IH. unfold Lookup, Handle.
    destruct (bool_decide_reflect
                (method = "OPTIONS" ∧ path ∈ map mountPath rules)) as [Ha|Ha],
      (bool_decide_reflect
         (method = "OPTIONS" ∧ path ∈ mountPath res :: map mountPath rules))
      as [Hb|Hb];
      rewrite elem_of_cons in Hb;
      destruct (mux !! ("OPTIONS", mountPath res)) as [h0|] eqn:Hopt;
      try (destruct (decide ((method, path) = ("OPTIONS", mountPath res)))
             as [[= -> ->]|Hne];
           [rewrite lookup_insert_eq | rewrite lookup_insert_ne by done]);
      try rewrite Hopt;
      try (destruct (mux !! (method, path)) as [h|] eqn:Hmp);
      try done; exfalso.
    all: try (apply Hb; destruct Ha as [Hm' Hin]; by split; [|right]).
    all: try (destruct Hb as [-> [->|Hin]]; [congruence | by apply Ha]).
    all: try (apply Hb; split; [done | by left]).
    all: try (destruct Hb as [-> [->|Hin]]; [done | by apply Ha]).
Qed.

(** X15.  Mounting the controller replaces no handler: whatever was
    registered for a method and a path, an OPTIONS handler of the
    application included, is still what [Lookup] gives afterwards. *)
Theorem X15_Mount_keeps_handlers (mux : Mux) (spec : Specification)
    (method path : string) (h : Handler) :
  Lookup mux method path = Some h →
  Lookup (MountPreflightController mux spec) method path = Some h.
Proof.
  intros Hl. unfold MountPreflightController. by rewrite mountLoop_lookup, Hl.
Qed.

Lemma X15_witness :
  Lookup sampleMux "OPTIONS" "/" = Some ownHandler ∧
  Lookup (MountPreflightController sampleMux sampleSpec) "OPTIONS" "/"
    = Some ownHandler.
Proof.
  assert (H : Lookup sampleMux "OPTIONS" "/" = Some ownHandler) by reflexivity.
  split; [exact H|].
  exact (X15_Mount_keeps_handlers sampleMux sampleSpec "OPTIONS" "/" ownHandler H).
Defined.

(** X16.  Where nothing was registered, mounting adds the preflight
    responder, wrapped in the middleware of the specification, for the
    method OPTIONS on the mount path of every rule, and adds nothing
    else. *)
Theorem X16_Mount_adds_preflight_routes (mux : Mux) (spec : Specification)
    (method path : string) :
  Lookup mux method path = None →
  Lookup (MountPreflightController mux spec) method path =
    if bool_decide (method = "OPTIONS" ∧ path ∈ map mountPath spec)
    then Some (Middleware spec preflightHandler) else None.
Proof.
  intros Hl. unfold MountPreflightController. by rewrite mountLoop_lookup, Hl.
Qed.

Lemma X16_witness :
  Lookup sampleMux "OPTIONS" "/api/*cors" = None ∧
  Lookup (MountPreflightController sampleMux sampleSpec) "OPTIONS" "/api/*cors"
    = Some (Middleware sampleSpec preflightHandler) ∧
  Lookup (MountPreflightController sampleMux sampleSpec) "GET" "/api/*cors"
    = None.
Proof.
  assert (H : Lookup sampleMux "OPTIONS" "/api/*cors" = None) by reflexivity.
  split; [exact H|]. split; [|reflexivity].
  rewrite (X16_Mount_adds_preflight_routes sampleMux sampleSpec "OPTIONS"
             "/api/*cors" H).
  reflexivity.
Defined.

(** X17.  Mounting the controller a second time changes nothing. *)
Theorem X17_Mount_idempotent (mux : Mux) (spec : Specification) :
  MountPreflightController (MountPreflightController mux spec) spec
    = MountPreflightController mux spec.
Proof.
  apply map_eq. intros [method path]. unfold MountPreflightController.
  change (?m !! (method, path)) with (Lookup m method path).
  rewrite !mountLoop_lookup.
  destruct (Lookup mux method path); [done|]. by case_bool_decide.
Qed.

(** X18.  The mounted responder, on a specification whose rules each
    have an origin or a pattern, answers every request without error:
    the status is 200 unless one was written before, the body is left
    as it was, Content-Type is text/plain and every other header is as
    the middleware negotiated it. *)
Theorem X18_preflight_responder (spec : Specification) (ctx : Context)
    (rw : ResponseWriter) (req : Request) :
  Forall originConfigured spec →
  ∃ rw' req' out,
    negotiate spec ctx rw req = Ret (rw', req') ∧
    Middleware spec preflightHandler ctx rw req = Ret (None, out, req') ∧
    rwStatus out = Some (default 200%Z (rwStatus rw)) ∧
    rwBody out = rwBody rw ∧
    rwHeader out !! "Content-Type" = Some ["text/plain"] ∧
    ∀ k, k ≠ "Content-Type" → rwHeader out !! k = rwHeader rw' !! k.
Proof.
  intros Hcfg.
  destruct (CorsMore.negotiate_returns spec ctx rw req Hcfg) as (rw' & req' & Hn).
  destruct (CorsMore.negotiate_shape _ _ _ _ _ _ Hn) as [Hs Hb].
  exists rw', req'. eexists. split; [done|].
  split; [by rewrite (Middleware_negotiate _ _ _ _ _ _ _ Hn)|].
  simpl. rewrite Hs, Hb. split; [by destruct (rwStatus rw)|].
  split; [apply append_empty|].
  split; [apply lookup_insert_eq|].
  intros k Hk. by apply lookup_insert_ne.
Qed.

Lemma X18_witness :
  Forall originConfigured sampleSpec ∧
  ∃ rw' req' out,
    negotiate sampleSpec rootContext freshWriter fooRequest = Ret (rw', req') ∧
    Middleware sampleSpec preflightHandler rootContext freshWriter fooRequest
      = Ret (None, out, req') ∧
    rwStatus out = Some (default 200%Z (rwStatus freshWriter)) ∧
    rwBody out = rwBody freshWriter ∧
    rwHeader out !! "Content-Type" = Some ["text/plain"] ∧
    ∀ k, k ≠ "Content-Type" → rwHeader out !! k = rwHeader rw' !! k.
Proof.
  split; [exact CorsMore.sampleSpec_configured|].
  exact (X18_preflight_responder sampleSpec rootContext freshWriter fooRequest
           CorsMore.sampleSpec_configured).
Defined.

(** The preflight of the specification's example: status 200 and the
    requested header echoed. *)
Example preflight_responder_sample :
  ∃ out req',
    Middleware [authorizedRule] preflightHandler rootContext freshWriter
      fooRequest = Ret (None, out, req') ∧
    rwStatus out = Some 200%Z ∧
    rwHeader out !! acAllowHeaders = Some ["foo"] ∧
    rwHeader out !! acAllowMethods = Some ["GET"] ∧
    rwHeader out !! acAllowOrigin = Some ["http://authorized.com"].
Proof. eexists _, _. repeat split; reflexivity. Qed.

End CorsMountFacts.

(** ** More on the token gate *)
Module JwtMore.
Import GoStrings GoMore Http Jwt JwtSpec MoreStringFacts MoreSamples.JwtData.

Lemma bearer_no_space (scheme : string) :
  ToLower scheme = "bearer" → holds " " scheme = false.
Proof. intros H. by rewrite <- holds_ToLower, H. Qed.

(** X19.  A token header made of the word bearer in any letter case,
    one space and a token decides alone: the token is the one handed to
    the token library, and when it is empty the result is the error
    "no token"; the query string is not looked at, even when
    [AllowParam] is set. *)
Theorem X19_GetToken_bearer_header {Keyfunc : Type}
    (Parse : string → Keyfunc → option Token * error)
    (req : Request) (spec : Specification Keyfunc) (scheme tok : string) :
  Header_Get (reqHeader req) (TokenHeader spec) = scheme ++ " " ++ tok →
  ToLower scheme = "bearer" →
  holds " " tok = false →
  GetToken Parse req spec =
    if tok =? "" then (None, Some "no token")
    else Parse tok (ValidationFunc spec).
Proof.
  intros Hh Hs Ht. unfold GetToken, headerToken. rewrite Hh.
  assert (Hne : (scheme ++ " " ++ tok =? "") = false).
  { apply String.eqb_neq. destruct scheme; discriminate. }
  rewrite Hne, (Split_two scheme tok (bearer_no_space _ Hs) Ht), Hs. done.
Qed.

Lemma X19_witness :
  Header_Get (reqHeader bearerRequest) (TokenHeader (withDefaults (sampleSpec true)))
    = "Bearer" ++ " " ++ "good" ∧
  ToLower "Bearer" = "bearer" ∧
  holds " " "good" = false ∧
  Query_Get (URLQuery bearerRequest) "token" = "other" ∧
  GetToken sampleParse bearerRequest (withDefaults (sampleSpec true))
    = sampleParse "good" "secret".
Proof.
  assert (H1 : Header_Get (reqHeader bearerRequest)
                 (TokenHeader (withDefaults (sampleSpec true)))
               = "Bearer" ++ " " ++ "good") by reflexivity.
  assert (H2 : ToLower "Bearer" = "bearer") by reflexivity.
  assert (H3 : holds " " "good" = false) by reflexivity.
  split; [exact H1|]. split; [exact H2|]. split; [exact H3|].
  split; [reflexivity|].
  rewrite (X19_GetToken_bearer_header sampleParse bearerRequest
             (withDefaults (sampleSpec true)) "Bearer" "good" H1 H2 H3).
  reflexivity.
Defined.

(** X20.  A token header that is not empty and does not hold exactly
    one space, or whose first word is not bearer, is an error
    ("Malformed token header"): the token library is not called and a
    token in the query string is not used instead. *)
Theorem X20_GetToken_malformed_header {Keyfunc : Type}
    (Parse : string → Keyfunc → option Token * error)
    (req : Request) (spec : Specification Keyfunc) :
  Header_Get (reqHeader req) (TokenHeader spec) ≠ "" →
  countByte " " (Header_Get (reqHeader req) (TokenHeader spec)) ≠ 1 ∨
  (∃ scheme tok,
     Header_Get (reqHeader req) (TokenHeader spec) = scheme ++ " " ++ tok ∧
     holds " " scheme = false ∧ holds " " tok = false ∧
     ToLower scheme ≠ "bearer") →
  GetToken Parse req spec = (None, Some "Malformed token header").
Proof.
  intros Hne Hbad. unfold GetToken, headerToken.
  apply String.eqb_neq in Hne. rewrite Hne. simpl.
  destruct Hbad as [Hcount|(scheme & tok & -> & Hs & Ht & Hb)].
  - pose proof (Split_length (Header_Get (reqHeader req) (TokenHeader spec)) " ")
      as Hl.
    destruct (Split _ " ") as [|a [|b [|c l]]]; simpl in Hl; try done.
    exfalso. apply Hcount. lia.
  - rewrite (Split_two scheme tok Hs Ht). apply String.eqb_neq in Hb.
    by rewrite Hb.
Qed.

Lemma X20_witness :
  Header_Get (reqHeader optionsRequest)
    (TokenHeader (withDefaults (sampleSpec true))) ≠ "" ∧
  (countByte " " (Header_Get (reqHeader optionsRequest)
                    (TokenHeader (withDefaults (sampleSpec true)))) ≠ 1 ∨
   (∃ scheme tok,
      Header_Get (reqHeader optionsRequest)
        (TokenHeader (withDefaults (sampleSpec true))) = scheme ++ " " ++ tok ∧
      holds " " scheme = false ∧ holds " " tok = false ∧
      ToLower scheme ≠ "bearer")) ∧
  GetToken sampleParse optionsRequest (withDefaults (sampleSpec true))
    = (None, Some "Malformed token header").
Proof.
  assert (H1 : Header_Get (reqHeader optionsRequest)
                 (TokenHeader (withDefaults (sampleSpec true))) ≠ "")
    by discriminate.
  assert (H2 : countByte " " (Header_Get (reqHeader optionsRequest)
                   (TokenHeader (withDefaults (sampleSpec true)))) ≠ 1 ∨
               (∃ scheme tok,
                  Header_Get (reqHeader optionsRequest)
                    (TokenHeader (withDefaults (sampleSpec true)))
                    = scheme ++ " " ++ tok ∧
                  holds " " scheme = false ∧ holds " " tok = false ∧
                  ToLower scheme ≠ "bearer"))
    by (left; discriminate).
  split; [exact H1|]. split; [exact H2|].
  exact (X20_GetToken_malformed_header sampleParse optionsRequest
           (withDefaults (sampleSpec true)) H1 H2).
Defined.

(** X21.  When tokens are required (the request is not OPTIONS, or
    [AuthOptions] is set) the middleware does one of three things,
    whatever the next handler is: it sends a 401 and does not call the
    handler; or [GetToken] gave a valid token and it calls the handler
    with the same response and request and with that token stored under
    [JWTKey]; or [GetToken] gave neither token nor error and it
    panics.  The handler is never called without a valid token. *)
Theorem X21_Middleware_guards_handler {Keyfunc : Type}
    (Parse : string → Keyfunc → option Token * error)
    (Send : ResponseWriter → Z → string → go (error * ResponseWriter))
    (spec : Specification Keyfunc)
    (ctx : Context) (rw : ResponseWriter) (req : Request) :
  AuthOptions spec = true ∨ Method req ≠ "OPTIONS" →
  (∃ body, (body = "Unauthorized" ∨ body = "Invalid Token") ∧
     ∀ h, Middleware Parse Send spec h ctx rw req =
            '(err, rw') ← Send rw 401%Z body; Ret (err, rw', req)) ∨
  (∃ token, GetToken Parse req (withDefaults spec) = (Some token, None) ∧
     Valid token = true ∧
     ctxValues (WithValue ctx JWTKey token) !! JWTKey = Some token ∧
     ∀ h, Middleware Parse Send spec h ctx rw req =
            h (WithValue ctx JWTKey token) rw req) ∨
  (GetToken Parse req (withDefaults spec) = (None, None) ∧
   ∀ h, Middleware Parse Send spec h ctx rw req = Panic).
Proof.
  intros Hgate.
  assert (Hb : negb (AuthOptions (withDefaults spec))
               && (Method req =? "OPTIONS") = false).
  { simpl. destruct Hgate as [->|Hm]; [done|].
    apply String.eqb_neq in Hm. rewrite Hm. apply andb_false_r. }
  unfold Middleware. rewrite Hb.
  destruct (GetToken Parse req (withDefaults spec)) as [[token|] [e|]] eqn:Hg.
  - left. exists "Unauthorized". split; [by left|done].
  - destruct (Valid token) eqn:Hv; simpl.
    + right; left. exists token. split; [done|]. split; [done|].
      split; [apply lookup_insert_eq|done].
    + left. exists "Invalid Token". split; [by right|done].
  - left. exists "Unauthorized". split; [by left|done].
  - right; right. done.
Qed.

Lemma X21_witness :
  (AuthOptions (sampleSpec true) = true ∨ Method bearerRequest ≠ "OPTIONS") ∧
  ((∃ body, (body = "Unauthorized" ∨ body = "Invalid Token") ∧
     ∀ h, Middleware sampleParse sampleSend (sampleSpec true) h emptyContext
            freshWriter bearerRequest =
            '(err, rw') ← sampleSend freshWriter 401%Z body;
            Ret (err, rw', bearerRequest)) ∨
   (∃ token,
      GetToken sampleParse bearerRequest (withDefaults (sampleSpec true))
        = (Some token, None) ∧
      Valid token = true ∧
      ctxValues (WithValue emptyContext JWTKey token) !! JWTKey = Some token ∧
      ∀ h, Middleware sampleParse sampleSend (sampleSpec true) h emptyContext
             freshWriter bearerRequest =
             h (WithValue emptyContext JWTKey token) freshWriter bearerRequest) ∨
   (GetToken sampleParse bearerRequest (withDefaults (sampleSpec true))
      = (None, None) ∧
    ∀ h, Middleware sampleParse sampleSend (sampleSpec true) h emptyContext
           freshWriter bearerRequest = Panic)).
Proof.
  assert (H : AuthOptions (sampleSpec true) = true ∨ Method bearerRequest ≠ "OPTIONS")
    by (left; reflexivity).
  split; [exact H|].
  exact (X21_Middleware_guards_handler sampleParse sampleSend (sampleSpec true)
           emptyContext freshWriter bearerRequest H).
Defined.

(** The request with the token good reaches the handler with the token
    in its context; with another token it is answered 401. *)
Example guarded_handler_sample :
  Middleware sampleParse sampleSend (sampleSpec true) okHandler emptyContext
    freshWriter bearerRequest
  = okHandler
      (WithValue emptyContext JWTKey
         {| Raw := "good"; Valid := true; Claims := ∅ |})
      freshWriter bearerRequest ∧
  Middleware sampleParse sampleSend (sampleSpec true) okHandler emptyContext
    freshWriter
    {| Method := "POST"; URLPath := "/goo"; URLQuery := ∅;
       reqHeader := {["Authorization" := ["bearer forged"]]}; Body := "" |}
  = Ret (None, writeResponse freshWriter 401 "Unauthorized",
         {| Method := "POST"; URLPath := "/goo"; URLQuery := ∅;
            reqHeader := {["Authorization" := ["bearer forged"]]}; Body := "" |}).
Proof. split; reflexivity. Qed.

End JwtMore.

(** ** More on the header gate *)
Module HeaderGateMore.
Import GoStrings GoMore Http HeaderGate HeaderGateSpec HeaderGateFacts.

(** X22.  Two header gates, one inside the other: the outer one answers
    first with its own status and status text, the inner one answers
    with its own when the outer one lets the request through, and the
    handler runs when both do.  Whether the handler is reached does not
    depend on the order of the gates.  So a request with neither header
    gets 401 Unauthorized from an outer gate built with 401, and one
    with the outer header only gets 403 Forbidden from the inner gate
    built with 403. *)
Theorem X22_RequireHeader_stacked
    (p1 : option Regexp) (n1 : string) (v1 : option Regexp) (s1 : Z)
    (p2 : option Regexp) (n2 : string) (v2 : option Regexp) (s2 : Z)
    (ctx : Context) :
  (∀ h, RequireHeader p1 n1 v1 s1 (RequireHeader p2 n2 v2 s2 h) ctx =
     if gateCloses p1 n1 v1 (ctxRequest ctx)
     then Ret (snd (ctxWrite ctx (StatusText s1)),
               {| ctxRequest := ctxRequest ctx;
                  ctxResponse :=
                    {| rwHeader := rwHeader (ctxResponse ctx);
                       rwStatus :=
                         Some (default s1 (rwStatus (ctxResponse ctx)));
                       rwBody := rwBody (ctxResponse ctx) ++
                                 fst (ctxWrite ctx (StatusText s1)) |};
                  ctxWrite := ctxWrite ctx |})
     else if gateCloses p2 n2 v2 (ctxRequest ctx)
     then Ret (snd (ctxWrite ctx (StatusText s2)),
               {| ctxRequest := ctxRequest ctx;
                  ctxResponse :=
                    {| rwHeader := rwHeader (ctxResponse ctx);
                       rwStatus :=
                         Some (default s2 (rwStatus (ctxResponse ctx)));
                       rwBody := rwBody (ctxResponse ctx) ++
                                 fst (ctxWrite ctx (StatusText s2)) |};
                  ctxWrite := ctxWrite ctx |})
     else h ctx) ∧
  ((∀ h, RequireHeader p1 n1 v1 s1 (RequireHeader p2 n2 v2 s2 h) ctx = h ctx) ↔
   (∀ h, RequireHeader p2 n2 v2 s2 (RequireHeader p1 n1 v1 s1 h) ctx = h ctx)) ∧
  RequireHeader None "X-Token" None 401
    (RequireHeader None "X-Role" None 403 okHandler) (sampleContext "/" [])
  = Ret (None,
         {| ctxRequest := ctxRequest (sampleContext "/" []);
            ctxResponse :=
              {| rwHeader := ∅; rwStatus := Some 401%Z;
                 rwBody := "Unauthorized" |};
            ctxWrite := ctxWrite (sampleContext "/" []) |}) ∧
  RequireHeader None "X-Token" None 401
    (RequireHeader None "X-Role" None 403 okHandler)
    (sampleContext "/" [("X-Token", ["t"])])
  = Ret (None,
         {| ctxRequest := ctxRequest (sampleContext "/" [("X-Token", ["t"])]);
            ctxResponse :=
              {| rwHeader := ∅; rwStatus := Some 403%Z;
                 rwBody := "Forbidden" |};
            ctxWrite := ctxWrite (sampleContext "/" [("X-Token", ["t"])]) |}).
Proof.
  split; [intros h; by rewrite !RequireHeader_cases, !RespondBytes_value|].
  split; [|split; reflexivity].
  assert (Hopen : ∀ (q1 q2 : option Regexp) (m1 m2 : string)
                    (w1 w2 : option Regexp) (t1 t2 : Z),
    (∀ h, RequireHeader q1 m1 w1 t1 (RequireHeader q2 m2 w2 t2 h) ctx = h ctx)
    ↔ gateCloses q1 m1 w1 (ctxRequest ctx) = false ∧
      gateCloses q2 m2 w2 (ctxRequest ctx) = false).
  { intros q1 q2 m1 m2 w1 w2 t1 t2. split.
    - intros Hall. specialize (Hall (fun _ => Panic)).
      rewrite !RequireHeader_cases, !RespondBytes_value in Hall.
      by destruct (gateCloses q1 _ _ _), (gateCloses q2 _ _ _).
    - intros [Ha Hb] h. by rewrite !RequireHeader_cases, Ha, Hb. }
  rewrite !Hopen. split; intros [Ha Hb]; by split.
Qed.

Lemma toLowerByte_valid (c : ascii) :
  validHeaderFieldByte (toLowerByte c) = validHeaderFieldByte c.
Proof. destruct c as [[] [] [] [] [] [] [] []]; reflexivity. Qed.

Lemma toLowerByte_canon (c : ascii) :
  toUpperByte (toLowerByte c) = toUpperByte c ∧
  toLowerByte (toLowerByte c) = toLowerByte c.
Proof. destruct c as [[] [] [] [] [] [] [] []]; split; reflexivity. Qed.

Lemma toUpperByte_valid (c : ascii) :
  validHeaderFieldByte (toUpperByte c) = validHeaderFieldByte c.
Proof. destruct c as [[] [] [] [] [] [] [] []]; reflexivity. Qed.

Lemma toUpperByte_canon (c : ascii) :
  toUpperByte (toUpperByte c) = toUpperByte c ∧
  toLowerByte (toUpperByte c) = toLowerByte c.
Proof. destruct c as [[] [] [] [] [] [] [] []]; split; reflexivity. Qed.

Lemma canonical_fold (f : ascii → ascii) (s : string) :
  (∀ c, validHeaderFieldByte (f c) = validHeaderFieldByte c) →
  (∀ c, toUpperByte (f c) = toUpperByte c ∧ toLowerByte (f c) = toLowerByte c) →
  allBytes validHeaderFieldByte s = true →
  CanonicalMIMEHeaderKey (mapBytes f s) = CanonicalMIMEHeaderKey s.
Proof.
  intros Hvalid Hcanon Hs. unfold CanonicalMIMEHeaderKey.
  assert (Hall : allBytes validHeaderFieldByte (mapBytes f s) = true).
  { induction s as [|c s IH]; simpl in *; [done|].
    apply andb_true_iff in Hs as [Hc Hs]. by rewrite Hvalid, Hc, IH. }
  rewrite Hall, Hs. clear Hall Hs. generalize true.
  induction s as [|c s IH]; intros upper; simpl; [done|].
  destruct (Hcanon c) as [-> ->]. by rewrite IH.
Qed.

(** X23.  The name of the required header may be configured in any
    letter case: for a name made of header-name bytes, the gate built
    with the name in lower case or in upper case is the gate built with
    the name as given. *)
Theorem X23_RequireHeader_name_case (pathPattern : option Regexp)
    (name : string) (requiredHeaderValue : option Regexp)
    (failureStatus : Z) (h : Handler) (ctx : Context) :
  allBytes validHeaderFieldByte name = true →
  RequireHeader pathPattern (ToLower name) requiredHeaderValue failureStatus h ctx
    = RequireHeader pathPattern name requiredHeaderValue failureStatus h ctx ∧
  RequireHeader pathPattern (ToUpper name) requiredHeaderValue failureStatus h ctx
    = RequireHeader pathPattern name requiredHeaderValue failureStatus h ctx.
Proof.
  intros Hname. unfold RequireHeader, Header_Get, ToLower, ToUpper.
  rewrite (canonical_fold toLowerByte name toLowerByte_valid toLowerByte_canon Hname).
  by rewrite (canonical_fold toUpperByte name toUpperByte_valid toUpperByte_canon Hname).
Qed.

Lemma X23_witness :
  allBytes validHeaderFieldByte "X-Token" = true ∧
  RequireHeader None (ToLower "X-Token") None 401 okHandler
    (sampleContext "/" [("X-Token", ["t"])])
  = RequireHeader None "X-Token" None 401 okHandler
      (sampleContext "/" [("X-Token", ["t"])]) ∧
  RequireHeader None (ToUpper "X-Token") None 401 okHandler
    (sampleContext "/" [("X-Token", ["t"])])
  = RequireHeader None "X-Token" None 401 okHandler
      (sampleContext "/" [("X-Token", ["t"])]).
Proof.
  assert (H : allBytes validHeaderFieldByte "X-Token" = true) by reflexivity.
  split; [exact H|].
  exact (X23_RequireHeader_name_case None "X-Token" None 401 okHandler
           (sampleContext "/" [("X-Token", ["t"])]) H).
Defined.

End HeaderGateMore.

(** ** Request identifiers and recovery *)
Module PipelineFacts.
Import GoStrings GoMore Http Pipeline MoreStringFacts MoreSamples.PipelineData.

Lemma iter_state (p : Process) (k : nat) :
  reqPrefix (Nat.iter k afterID p) = reqPrefix p ∧
  wrap64 (reqID (Nat.iter k afterID p) + 1)
    = wrap64 (reqID p + Z.of_nat k + 1).
Proof.
  induction k as [|k [IHp IHc]].
  - split; [done|]. simpl. f_equal. lia.
  - rewrite Nat.iter_succ. split; [done|].
    change (reqID (afterID ?q)) with (wrap64 (reqID q + 1)).
    rewrite IHc, wrap64_add. f_equal. lia.
Qed.

Lemma idAfter_value (p : Process) (k : nat) :
  idAfter p k = reqPrefix p ++ "-" ++ Itoa (wrap64 (reqID p + Z.of_nat k + 1)).
Proof.
  unfold idAfter. destruct (iter_state p k) as [Hp Hc]. simpl. by rewrite Hp, Hc.
Qed.

(** X24.  The identifiers the process generates do not repeat: two
    requests without an identifier of their own get different ones, as
    long as fewer than 2^64 generated identifiers lie between them. *)
Theorem X24_generated_ids_distinct (p : Process) (i j : nat) :
  (i < j)%nat →
  (Z.of_nat j - Z.of_nat i < 2 ^ 64)%Z →
  idAfter p i ≠ idAfter p j.
Proof.
  intros Hij Hrange. rewrite !idAfter_value. intros Heq.
  apply (inj (String.append (reqPrefix p))) in Heq.
  apply (inj (String.append "-")) in Heq.
  apply Itoa_inj in Heq.
  apply (wrap64_inj _ _ Heq). lia.
Qed.

Lemma X24_witness :
  (0 < 1)%nat ∧ (Z.of_nat 1 - Z.of_nat 0 < 2 ^ 64)%Z ∧
  idAfter sampleProcess 0 = "hkTq3xVb9Z-42" ∧
  idAfter sampleProcess 1 = "hkTq3xVb9Z-43" ∧
  idAfter sampleProcess 0 ≠ idAfter sampleProcess 1.
Proof.
  assert (H1 : (0 < 1)%nat) by lia.
  assert (H2 : (Z.of_nat 1 - Z.of_nat 0 < 2 ^ 64)%Z) by reflexivity.
  split; [exact H1|]. split; [exact H2|].
  split; [reflexivity|]. split; [reflexivity|].
  exact (X24_generated_ids_distinct sampleProcess 0 1 H1 H2).
Defined.

(** The counter wraps around at the end of the 64-bit range. *)
Example counter_wraps :
  idAfter {| reqID := 2 ^ 63 - 1; reqPrefix := "p" |} 0
    = "p--9223372036854775808".
Proof. reflexivity. Qed.

(** X25.  Every request reaches the next handler with an identifier
    that is not empty, stored under [ReqIDKey].  An identifier the
    request brings in X-Request-Id is used as it is and leaves the
    counter alone; otherwise the counter advances by one and the
    identifier is the prefix, a hyphen and the counter in decimal. *)
Theorem X25_RequestID_sets_id (h : Handler) (p : Process) (ctx : Context) :
  ∃ id p',
    RequestID h p ctx = h p' (SetValue ctx ReqIDKey id) ∧
    id ≠ "" ∧
    Value (SetValue ctx ReqIDKey id) ReqIDKey = Some id ∧
    (Header_Get (reqHeader (ctxRequest ctx)) RequestIDHeader ≠ "" →
     id = Header_Get (reqHeader (ctxRequest ctx)) RequestIDHeader ∧ p' = p) ∧
    (Header_Get (reqHeader (ctxRequest ctx)) RequestIDHeader = "" →
     id = reqPrefix p ++ "-" ++ Itoa (wrap64 (reqID p + 1)) ∧
     reqID p' = wrap64 (reqID p + 1) ∧ reqPrefix p' = reqPrefix p).
Proof.
  unfold RequestID.
  destruct (String.eqb_spec
              (Header_Get (reqHeader (ctxRequest ctx)) RequestIDHeader) "")
    as [Hempty|Hne].
  - eexists _, _. split; [reflexivity|]. split.
    + simpl. destruct (reqPrefix p); discriminate.
    + split; [apply lookup_insert_eq|]. split; [by intros []|]. done.
  - eexists _, _. split; [reflexivity|]. split; [done|].
    split; [apply lookup_insert_eq|]. split; [done|]. by intros Hempty.
Qed.

(** X26.  When the handler panics and the stack text has at least three
    lines, [Recover] returns the error made of the panic value and
    answers 500 (unless a status was written before), leaving request,
    values and response headers as the handler left them.  The body is
    the support message with the request identifier when the context
    has a logger and an identifier, and the text of the error
    otherwise; with a logger, one record with the error and the stack
    without its first three lines is logged. *)
Theorem X26_Recover_answers_panic (lines : list string) (h : Handler)
    (p p' : Process) (ctx ctx' : Context) (v : PanicValue) :
  h p ctx = Panicked v ctx' p' →
  (3 ≤ length lines)%nat →
  ∃ out,
    Recover lines h p ctx = Returned (Some (panicError v)) out p' ∧
    ctxRequest out = ctxRequest ctx' ∧ ctxValues out = ctxValues ctx' ∧
    rwHeader (ctxResponse out) = rwHeader (ctxResponse ctx') ∧
    rwStatus (ctxResponse out)
      = Some (default 500%Z (rwStatus (ctxResponse ctx'))) ∧
    rwBody (ctxResponse out) =
      rwBody (ctxResponse ctx') ++
      match ctxLogger ctx', Value ctx' ReqIDKey with
      | Some _, Some id =>
          "Internal Server Error" ++
          String "010" "Refer to the following token when contacting support: "
          ++ id
      | _, _ => panicError v
      end ∧
    ctxLogger out =
      (fun log => (log ++ [("panic", [("err", LogText (panicError v));
                                      ("stack", LogLines (drop 3 lines))])])%list)
        <$> ctxLogger ctx'.
Proof.
  intros Hh Hlines. unfold Recover, recovered. rewrite Hh.
  assert (Hlt : (length lines <? 3)%nat = false) by (apply Nat.ltb_ge; lia).
  rewrite Hlt.
  destruct (ctxLogger ctx') as [log|] eqn:Hlog.
  - destruct (Value ctx' ReqIDKey) as [id|] eqn:Hid.
    + eexists. split; [reflexivity|]. simpl.
      repeat split; try done. by destruct (rwStatus (ctxResponse ctx')).
    + eexists. split; [reflexivity|]. simpl.
      repeat split; try done. by destruct (rwStatus (ctxResponse ctx')).
  - eexists. split; [reflexivity|]. simpl. rewrite Hlog.
    repeat split; try done. by destruct (rwStatus (ctxResponse ctx')).
Qed.

Lemma X26_witness :
  panickingHandler sampleProcess sampleContext
    = Panicked (PanicString "index out of range") sampleContext sampleProcess ∧
  (3 ≤ length sampleLines)%nat ∧
  ∃ out,
    Recover sampleLines panickingHandler sampleProcess sampleContext
      = Returned (Some "panic: index out of range") out sampleProcess ∧
    rwStatus (ctxResponse out) = Some 500%Z ∧
    rwBody (ctxResponse out) =
      "Internal Server Error" ++
      String "010" "Refer to the following token when contacting support: "
      ++ "hkTq3xVb9Z-42".
Proof.
  assert (H1 : panickingHandler sampleProcess sampleContext
               = Panicked (PanicString "index out of range") sampleContext
                   sampleProcess) by reflexivity.
  assert (H2 : (3 ≤ length sampleLines)%nat) by (simpl; lia).
  split; [exact H1|]. split; [exact H2|].
  destruct (X26_Recover_answers_panic sampleLines panickingHandler sampleProcess
              sampleProcess sampleContext sampleContext
              (PanicString "index out of range") H1 H2)
    as (out & Hrec & _ & _ & _ & Hstatus & Hbody & _).
  exists out. split; [exact Hrec|]. split; [exact Hstatus|]. exact Hbody.
Defined.

(** A handler that returns is not disturbed; recovery without a logger
    sends the text of the error. *)
Example Recover_samples :
  Recover sampleLines (fun p ctx => Returned None ctx p) sampleProcess sampleContext
    = Returned None sampleContext sampleProcess ∧
  ∃ out,
    Recover sampleLines panickingHandler sampleProcess
      {| ctxRequest := ctxRequest sampleContext;
         ctxResponse := ctxResponse sampleContext;
         ctxValues := ctxValues sampleContext; ctxLogger := None |}
      = Returned (Some "panic: index out of range") out sampleProcess ∧
    rwBody (ctxResponse out) = "panic: index out of range".
Proof. split; [reflexivity|]. eexists. split; reflexivity. Qed.

End PipelineFacts.
